(** * Tavily-Web-Scraper: the three agents of [main2.py] and its menu loop

    A shallow embedding of [src/main2.py]: the class [TavilyAgents]
    (constructor, [search_agent], [extract_agent], [crawl_agent]) and the
    [while True] loop of [main].  The remote SDK ([TavilyClient]) is not part
    of the repository; it is an arbitrary oracle that answers a request with
    a Python value or raises an exception.

    The output is modelled twice.  The agents and the loop are first
    written on a console that accepts every line; [Console] then says which
    lines a UTF-8 console refuses (text with a lone surrogate, an int of
    more than 4300 digits), and [Strict] is the same program with a [print]
    that raises on them.  The two agree on every run whose lines are
    accepted ([agree_main_loop]). *)

From Stdlib Require Import List NArith ZArith QArith Bool String Ascii Lia.
Import ListNotations.
Local Open Scope list_scope.

(** ** Python strings *)

Module PyStr.

(** A Python [str] is a sequence of Unicode code points. *)
Definition pystr := list N.

(** An ASCII literal of the source, one code point per character. *)
Definition py (s : string) : pystr :=
  List.map N_of_ascii (list_ascii_of_string s).

Fixpoint eqb (a b : pystr) : bool :=
  match a, b with
  | [], [] => true
  | x :: a', y :: b' => N.eqb x y && eqb a' b'
  | _, _ => false
  end.

(** Truth value of a string: [if s:] holds for a non-empty string. *)
Definition nonempty (s : pystr) : bool :=
  match s with [] => false | _ :: _ => true end.

(** [str.isspace] on one code point (CPython's [_PyUnicode_IsWhitespace]). *)
Definition isspace (c : N) : bool :=
  ((9 <=? c) && (c <=? 13) || (28 <=? c) && (c <=? 32)
   || (c =? 133) || (c =? 160) || (c =? 5760)
   || (8192 <=? c) && (c <=? 8202)
   || (c =? 8232) || (c =? 8233) || (c =? 8239) || (c =? 8287)
   || (c =? 12288))%N.

Fixpoint lstrip (s : pystr) : pystr :=
  match s with
  | [] => []
  | c :: s' => if isspace c then lstrip s' else s
  end.

Definition rstrip (s : pystr) : pystr := rev (lstrip (rev s)).

(** [s.strip()]: leading and trailing whitespace removed. *)
Definition strip (s : pystr) : pystr := rstrip (lstrip s).

(** [s.split(sep)] for a one-character separator: never filters a piece,
    so the result has one more element than [s] has separators. *)
Fixpoint split (sep : N) (s : pystr) : list pystr :=
  match s with
  | [] => [[]]
  | c :: s' =>
      if N.eqb c sep then [] :: split sep s'
      else match split sep s' with
           | [] => [[c]]
           | p :: ps => (c :: p) :: ps
           end
  end.

Definition comma : N := 44.

End PyStr.
Import PyStr.

(** ** Python values and exceptions *)

(** The values a decoded JSON response is made of.  A [dict] keeps its
    insertion order ([keys()] is printed), so it is an association list. *)
#[warnings="-register-all"] Inductive pyval :=
| VNone
| VBool (b : bool)
| VNum (q : Q)
| VStr (s : pystr)
| VList (l : list pyval)
| VDict (d : list (pystr * pyval)).

(** Exceptions, by class.  [RemoteError] stands for any class of the SDK or
    of its transport that derives from [Exception]; the last four derive from
    [BaseException] only. *)
Inductive exn :=
| KeyError (key : pyval)
| TypeError
| AttributeError
| IndexError
| ValueError (msg : pystr)
| EOFError
| RemoteError (name msg : pystr)
| KeyboardInterrupt
| SystemExit
| GeneratorExit
| BaseOnly (name msg : pystr).

(** [isinstance(e, Exception)]: what [except Exception as e] matches. *)
Definition isinstance_Exception (e : exn) : bool :=
  match e with
  | KeyError _ | TypeError | AttributeError | IndexError
  | ValueError _ | EOFError | RemoteError _ _ => true
  | KeyboardInterrupt | SystemExit | GeneratorExit | BaseOnly _ _ => false
  end.

Module Py.

(** [bool(v)] *)
Definition truthy (v : pyval) : bool :=
  match v with
  | VNone => false
  | VBool b => b
  | VNum q => negb (Z.eqb (Qnum q) 0)
  | VStr s => nonempty s
  | VList l => match l with [] => false | _ => true end
  | VDict d => match d with [] => false | _ => true end
  end.

(** [a or b] on optional strings ([None] or a [str]). *)
Definition truthy_opt (a : option pystr) : bool :=
  match a with Some s => nonempty s | None => false end.

Definition or_opt (a b : option pystr) : option pystr :=
  if truthy_opt a then a else b.

Fixpoint lookup (key : pystr) (d : list (pystr * pyval)) : option pyval :=
  match d with
  | [] => None
  | (k, v) :: d' => if PyStr.eqb k key then Some v else lookup key d'
  end.

(** [len(v)] *)
Definition len (v : pyval) : exn + nat :=
  match v with
  | VStr s => inr (List.length s)
  | VList l => inr (List.length l)
  | VDict d => inr (List.length d)
  | VNone | VBool _ | VNum _ => inl TypeError
  end.

(** [v[key]] for a string key *)
Definition getitem (v : pyval) (key : pystr) : exn + pyval :=
  match v with
  | VDict d =>
      match lookup key d with
      | Some x => inr x
      | None => inl (KeyError (VStr key))
      end
  | _ => inl TypeError
  end.

(** [d.get(key, default)] on the items of a dictionary *)
Definition find (key : pystr) (d : list (pystr * pyval)) (default : pyval)
  : pyval :=
  match lookup key d with
  | Some x => x
  | None => default
  end.

(** [v.get(key, default)] *)
Definition get (v : pyval) (key : pystr) (default : pyval) : exn + pyval :=
  match v with
  | VDict d => inr (find key d default)
  | _ => inl AttributeError
  end.

(** [v.keys()] *)
Definition keys (v : pyval) : exn + list pystr :=
  match v with
  | VDict d => inr (List.map fst d)
  | _ => inl AttributeError
  end.

(** The items a [for] loop over [v] visits. *)
Definition iter (v : pyval) : exn + list pyval :=
  match v with
  | VList l => inr l
  | VStr s => inr (List.map (fun c => VStr [c]) s)
  | VDict d => inr (List.map (fun kv => VStr (fst kv)) d)
  | VNone | VBool _ | VNum _ => inl TypeError
  end.

(** [v[0]] *)
Definition first (v : pyval) : exn + pyval :=
  match v with
  | VList (x :: _) => inr x
  | VList [] => inl IndexError
  | VStr (c :: _) => inr (VStr [c])
  | VStr [] => inl IndexError
  | VDict _ => inl (KeyError (VNum 0))
  | VNone | VBool _ | VNum _ => inl TypeError
  end.

End Py.

(** ** The agents object and its constructor *)

(** The SDK's client handle: it holds the key it was built with. *)
Record TavilyClient := { client_api_key : option pystr }.

Record TavilyAgents := { api_key : option pystr; client : TavilyClient }.

Definition missing_key_message : pystr :=
  py "Please provide TAVILY_API_KEY environment variable "
  ++ py "or pass it to the constructor".

(** [TavilyAgents.__init__(self, api_key=None)]; [environ] is the value of
    [os.environ.get('TAVILY_API_KEY')]. *)
Definition TavilyAgents_init (api_key environ : option pystr)
  : exn + TavilyAgents :=
  let key := Py.or_opt api_key environ in
  if negb (Py.truthy_opt key) then inl (ValueError missing_key_message)
  else inr {| api_key := key; client := {| client_api_key := key |} |}.

(** ** Remote requests and what the program prints *)

(** The two calls made on the client, with their keyword arguments;
    [include_raw_content] of [Extract] is [None] when the keyword is not
    passed. *)
Inductive request :=
| Search (query : pystr) (max_results : Z) (search_depth : pystr)
         (include_raw_content : bool)
| Extract (urls : list pystr) (include_raw_content : option bool).

Inductive agent := SearchAgent | ExtractAgent | CrawlAgent.

(** One constructor per [print] of the source, with the values it formats. *)
Inductive output :=
| OSearching (query : pystr)
| OFound (n : nat)
| ORuleTop
| ORule
| OResultNo (i : nat)
| OExtractionNo (i : nat)
| OMainPage (url : pyval)
| OTitle (title : pyval)
| OUrl (url : pyval)
| OScore (score : pyval)
| OContentLength (n : nat)
| OContentExtracted (n : nat)
| OFullContentLabel
| OExtractedLabel
| OCrawledLabel
| ODash
| OContent (content : pyval)
| OBlank
| OFields (keys : list pystr)
| OExtracting (n : nat)
| OCrawling (url : pystr) (max_depth : Z)
| OError (a : agent) (e : exn)
| OMenu
| OEmptyQuery
| OEmptyUrl
| OGoodbye
| OInvalidChoice.

Inductive event :=
| Out (o : output)
| Remote (r : request).

(** The placeholder of [result.get('score', 'N/A')] and of
    [result.get('title', 'N/A')]. *)
Definition NA : pyval := VStr (py "N/A").

(** [extract_agent] takes a single string or a list of strings. *)
Inductive urls_arg :=
| UrlStr (u : pystr)
| UrlList (l : list pystr).

Definition requests (t : list event) : list request :=
  flat_map (fun ev => match ev with Remote r => [r] | Out _ => [] end) t.

Definition printed (t : list event) : list output :=
  flat_map (fun ev => match ev with Out o => [o] | Remote _ => [] end) t.

(** The texts shown as content, in order. *)
Definition displayed_content (t : list event) : list pyval :=
  flat_map (fun ev => match ev with Out (OContent c) => [c] | _ => [] end) t.


(** ** Computations: output, remote state and exceptions *)

(** What a computation leaves behind: the events so far (everything printed
    before an exception stays printed), the state of the remote service, and
    a returned value or a raised exception. *)
Record result (World A : Type) := Result
  { trace : list event; world : World; value : exn + A }.
Arguments Result {World A}.
Arguments trace {World A}.
Arguments world {World A}.
Arguments value {World A}.

(** The outcome [r] of the rest of a computation, after the events [t]. *)
Definition prepend {World A : Type} (t : list event) (r : result World A)
  : result World A :=
  Result (t ++ trace r) (world r) (value r).

(** The [input()] call at which the menu loop of [main] is blocked. *)
Inductive prompt :=
| AtChoice      (* line 334: Enter your choice (1-4) *)
| AtQuery       (* line 339: Enter search query *)
| AtUrls        (* line 347: Enter URL(s) *)
| AtCrawlUrl    (* line 358: Enter URL to crawl *)
| AtContinue.   (* line 375: Press Enter to continue *)

(** The loop is blocked at a prompt, or was left through [break]. *)
Inductive shell :=
| Waiting (p : prompt)
| Exit.

(** What [input()] meets on standard input: a line (without its newline),
    or the end of the file, at which it raises [EOFError]. *)
Inductive stdin :=
| Line (s : pystr)
| EOF.

Section Agents.

(** The remote service: some state, and an answer to every request made
    through a client handle, either a value or a raised exception. *)
Variable World : Type.
Variable remote : TavilyClient -> request -> World -> (exn + pyval) * World.

Definition M (A : Type) := World -> result World A.

Definition ret {A} (a : A) : M A :=
  fun w => Result [] w (inr a).

Definition raise {A} (e : exn) : M A :=
  fun w => Result [] w (inl e).

Definition bind {A B} (m : M A) (k : A -> M B) : M B :=
  fun w =>
    let r := m w in
    match value r with
    | inl e => Result (trace r) (world r) (inl e)
    | inr a => prepend (trace r) (k a (world r))
    end.

Definition lift {A} (x : exn + A) : M A :=
  fun w => Result [] w x.

(** [print(...)] on a console that accepts the line.  What a console
    refuses is described in [Console] below, and [Strict.print] raises it. *)
Definition print (o : output) : M unit :=
  fun w => Result [Out o] w (inr tt).

(** A call on [self.client]. *)
Definition call (c : TavilyClient) (r : request) : M pyval :=
  fun w => let '(answer, w') := remote c r w in Result [Remote r] w' answer.

(** [try: body  except Exception as e: handler e] *)
Definition try_except {A} (body : M A) (handler : exn -> M A) : M A :=
  fun w =>
    let r := body w in
    match value r with
    | inr _ => r
    | inl e =>
        if isinstance_Exception e then prepend (trace r) (handler e (world r))
        else r
    end.

Notation "x <- m ;; k" := (bind m (fun x => k))
  (at level 61, m at next level, right associativity).
Notation "m ;; k" := (bind m (fun _ => k))
  (at level 61, right associativity).

(** [for i, x in enumerate(items, start): body i x] *)
Fixpoint for_enumerate (start : nat) (items : list pyval)
         (body : nat -> pyval -> M unit) : M unit :=
  match items with
  | [] => ret tt
  | x :: rest => body start x ;; for_enumerate (S start) rest body
  end.

(** *** [search_agent] *)

(** [result.get('raw_content', '') or result.get('content', '')] *)
Definition full_content (result : pyval) : M pyval :=
  raw <- lift (Py.get result (py "raw_content") (VStr [])) ;;
  if Py.truthy raw then ret raw
  else lift (Py.get result (py "content") (VStr [])).

(** The body of the loop over the results (lines 116-139). *)
Definition search_result (i : nat) (result : pyval) : M unit :=
  print ORuleTop ;;
  print (OResultNo i) ;;
  print ORule ;;
  title <- lift (Py.getitem result (py "title")) ;;
  print (OTitle title) ;;
  url <- lift (Py.getitem result (py "url")) ;;
  print (OUrl url) ;;
  score <- lift (Py.get result (py "score") NA) ;;
  print (OScore score) ;;
  content <- full_content result ;;
  content_length <- lift (Py.len content) ;;
  print (OContentLength content_length) ;;
  print OFullContentLabel ;;
  print ODash ;;
  print (OContent content) ;;
  print ODash ;;
  print OBlank ;;
  fields <- lift (Py.keys result) ;;
  print (OFields fields) ;;
  print OBlank.

(** The rest of the [try] block once the call has answered
    (lines 105-142). *)
Definition search_display (response : pyval) : M pyval :=
  results <- lift (Py.get response (py "results") (VList [])) ;;
  found <- lift (Py.len results) ;;
  print (OFound found) ;;
  items <- lift (Py.iter results) ;;
  for_enumerate 1 items search_result ;;
  ret response.

Definition search_agent (self : TavilyAgents) (query : pystr)
           (max_results : Z) : M pyval :=
  print (OSearching query) ;;
  try_except
    (response <- call (client self)
                   (Search query max_results (py "advanced") true) ;;
     search_display response)
    (fun e => print (OError SearchAgent e) ;; ret VNone).

(** *** [extract_agent] *)

(** [if isinstance(urls, str): urls = [urls]] *)
Definition normalize_urls (urls : urls_arg) : list pystr :=
  match urls with
  | UrlStr u => [u]
  | UrlList l => l
  end.

(** The body of the loop over the extracted records (lines 184-199). *)
Definition extract_result (i : nat) (result : pyval) : M unit :=
  print ORuleTop ;;
  print (OExtractionNo i) ;;
  print ORule ;;
  url <- lift (Py.getitem result (py "url")) ;;
  print (OUrl url) ;;
  title <- lift (Py.get result (py "title") NA) ;;
  print (OTitle title) ;;
  raw_content <- lift (Py.get result (py "raw_content") (VStr [])) ;;
  content_length <- lift (Py.len raw_content) ;;
  print (OContentLength content_length) ;;
  print OExtractedLabel ;;
  print ODash ;;
  print (OContent raw_content) ;;
  print ODash ;;
  print OBlank.

(** The rest of the [try] block once the call has answered
    (lines 182-201). *)
Definition extract_display (response : pyval) : M pyval :=
  results <- lift (Py.get response (py "results") (VList [])) ;;
  items <- lift (Py.iter results) ;;
  for_enumerate 1 items extract_result ;;
  ret response.

Definition extract_agent (self : TavilyAgents) (urls : urls_arg) : M pyval :=
  let urls := normalize_urls urls in
  print (OExtracting (List.length urls)) ;;
  try_except
    (response <- call (client self) (Extract urls None) ;;
     extract_display response)
    (fun e => print (OError ExtractAgent e) ;; ret VNone).

(** *** [crawl_agent] *)

(** The block under [if response and response.get('results'):]
    (lines 244-261). *)
Definition crawl_main_page (response : pyval) : M unit :=
  results <- lift (Py.getitem response (py "results")) ;;
  result <- lift (Py.first results) ;;
  print ORuleTop ;;
  url <- lift (Py.getitem result (py "url")) ;;
  print (OMainPage url) ;;
  print ORule ;;
  title <- lift (Py.get result (py "title") NA) ;;
  print (OTitle title) ;;
  content <- lift (Py.get result (py "raw_content") (VStr [])) ;;
  content_length <- lift (Py.len content) ;;
  print (OContentExtracted content_length) ;;
  print OCrawledLabel ;;
  print ODash ;;
  print (OContent content) ;;
  print ODash.

(** The rest of the [try] block once the call has answered
    (lines 240-263). *)
Definition crawl_display (response : pyval) : M pyval :=
  (if Py.truthy response then
     results <- lift (Py.get response (py "results") VNone) ;;
     if Py.truthy results then crawl_main_page response else ret tt
   else ret tt) ;;
  ret response.

Definition crawl_agent (self : TavilyAgents) (url : pystr) (max_depth : Z)
  : M pyval :=
  print (OCrawling url max_depth) ;;
  try_except
    (response <- call (client self) (Extract [url] (Some true)) ;;
     crawl_display response)
    (fun e => print (OError CrawlAgent e) ;; ret VNone).

(** *** The menu loop of [main] (lines 323-375) *)

(** What the loop does with one line read at prompt [p], up to the next
    [input()] or to [break]. *)
Definition step (agents : TavilyAgents) (p : prompt) (line : pystr)
  : M shell :=
  match p with
  | AtChoice =>
      let choice := strip line in
      if PyStr.eqb choice (py "1") then ret (Waiting AtQuery)
      else if PyStr.eqb choice (py "2") then ret (Waiting AtUrls)
      else if PyStr.eqb choice (py "3") then ret (Waiting AtCrawlUrl)
      else if PyStr.eqb choice (py "4") then print OGoodbye ;; ret Exit
      else print OInvalidChoice ;; ret (Waiting AtContinue)
  | AtQuery =>
      let query := strip line in
      (if nonempty query then search_agent agents query 5 ;; ret tt
       else print OEmptyQuery) ;;
      ret (Waiting AtContinue)
  | AtUrls =>
      let url_input := strip line in
      (if nonempty url_input then
         let urls := List.map strip (split comma url_input) in
         extract_agent agents (UrlList urls) ;; ret tt
       else print OEmptyUrl) ;;
      ret (Waiting AtContinue)
  | AtCrawlUrl =>
      let url := strip line in
      (if nonempty url then crawl_agent agents url 2 ;; ret tt
       else print OEmptyUrl) ;;
      ret (Waiting AtContinue)
  | AtContinue =>
      print OMenu ;; ret (Waiting AtChoice)
  end.

(** The loop fed with what was typed so far: it stops reading at [break], is
    aborted by an exception that nothing in [main] catches, and is otherwise
    left blocked at its next prompt. *)
Fixpoint run (agents : TavilyAgents) (inputs : list stdin) (s : shell)
  : M shell :=
  match s with
  | Exit => ret Exit
  | Waiting p =>
      match inputs with
      | [] => ret (Waiting p)
      | EOF :: _ => raise EOFError
      | Line line :: rest => s' <- step agents p line ;; run agents rest s'
      end
  end.

Definition main_loop (agents : TavilyAgents) (inputs : list stdin)
  : M shell :=
  print OMenu ;; run agents inputs (Waiting AtChoice).

End Agents.

Arguments ret {World A}.
Arguments raise {World A}.
Arguments bind {World A B}.
Arguments lift {World A}.
Arguments print {World}.
Arguments call {World}.
Arguments try_except {World A}.
Arguments for_enumerate {World}.
Arguments full_content {World}.
Arguments search_result {World}.
Arguments extract_result {World}.
Arguments crawl_main_page {World}.
Arguments search_display {World}.
Arguments extract_display {World}.
Arguments crawl_display {World}.
Arguments search_agent {World}.
Arguments extract_agent {World}.
Arguments crawl_agent {World}.
Arguments step {World}.
Arguments run {World}.
Arguments main_loop {World}.

(** ** Remote services and records used as examples *)

Module Examples.

(** A stateless service that gives the same answer to every request. *)
Definition answering (response : pyval)
  : TavilyClient -> request -> unit -> (exn + pyval) * unit :=
  fun _ _ w => (inr response, w).

(** A stateless service on which every request raises [e]. *)
Definition failing (e : exn)
  : TavilyClient -> request -> unit -> (exn + pyval) * unit :=
  fun _ _ w => (inl e, w).

Definition connection_error : exn :=
  RemoteError (py "ConnectionError") (py "connection refused").

Definition agents : TavilyAgents :=
  {| api_key := Some (py "tvly-demo");
     client := {| client_api_key := Some (py "tvly-demo") |} |}.

(** A record with a url and summarized content, but neither a title nor
    raw content. *)
Definition untitled_fields : list (pystr * pyval) :=
  [(py "url", VStr (py "https://a")); (py "content", VStr (py "summary"))].

Definition untitled : pyval := VDict untitled_fields.

Definition untitled_response : pyval :=
  VDict [(py "results", VList [untitled])].

(** A record with both content variants. *)
Definition both_contents : list (pystr * pyval) :=
  [(py "title", VStr (py "T"));
   (py "url", VStr (py "https://a"));
   (py "raw_content", VStr (py "full text"));
   (py "content", VStr (py "summary"))].

(** A record whose raw content is empty. *)
Definition empty_raw : list (pystr * pyval) :=
  [(py "title", VStr (py "T"));
   (py "url", VStr (py "https://a"));
   (py "raw_content", VStr []);
   (py "content", VStr (py "summary"))].

(** A record with neither content variant. *)
Definition no_content : list (pystr * pyval) :=
  [(py "title", VStr (py "T")); (py "url", VStr (py "https://a"))].


End Examples.

(** ** Computations that stay on this side of the network *)

(** A computation is local when it makes no remote request, leaves the
    remote state alone, and fails only with exceptions deriving from
    [Exception]: the formatting code inside the [try] blocks. *)
Definition local {World A : Type} (m : World -> result World A) : Prop :=
  forall w,
    world (m w) = w /\
    requests (trace (m w)) = [] /\
    forall e, value (m w) = inl e -> isinstance_Exception e = true.

(** A computation all of whose events satisfy [P], whatever it returns. *)
Definition emits {World A : Type} (P : event -> Prop)
  (m : World -> result World A) : Prop :=
  forall w, Forall P (trace (m w)).

(** The record numbers shown ("Result #i", "Extraction #i"), in order. *)
Definition result_numbers (t : list event) : list nat :=
  flat_map (fun ev => match ev with
                      | Out (OResultNo i) | Out (OExtractionNo i) => [i]
                      | _ => [] end) t.

(** The failure lines shown, in order. *)
Definition errors_shown (t : list event) : list (agent * exn) :=
  flat_map (fun ev => match ev with
                      | Out (OError a e) => [(a, e)]
                      | _ => [] end) t.

(** ** The start of [main] (lines 287-320) *)

Module Startup.

(** [needle in hay] on strings *)
Fixpoint starts_with (needle hay : pystr) : bool :=
  match needle, hay with
  | [], _ => true
  | _ :: _, [] => false
  | x :: needle', y :: hay' => N.eqb x y && starts_with needle' hay'
  end.

Fixpoint contains (needle hay : pystr) : bool :=
  starts_with needle hay
  || match hay with
     | [] => false
     | _ :: hay' => contains needle hay'
     end.

(** What [main] finds around it: the value of
    [os.environ.get('TAVILY_API_KEY')], the current directory, and, when
    [.env] exists, the lines read from it together with the error that ended
    the reading, if any ([open] failing reads no line). *)
Record surroundings := Surroundings
  { environ_key : option pystr;
    getcwd : pystr;
    dotenv : option (list pystr * option exn) }.

(** What lines 287-319 print: the three lines of the banner and the help
    text of lines 313-319 are one constructor each, every other [print] has
    its own. *)
Inductive startup_output :=
| SBanner
| SKeyLoaded (shown : option pystr)
| SNoKey
| SDebugInfo
| SCwd (directory : pystr)
| SEnvExists (b : bool)
| SEnvContents
| SEnvLine (line : pystr)
| SStartupError (e : exn)
| SHelp.

(** How [main] ends: an exception nothing catches, the early [return] of
    line 320, or the menu loop. *)
Inductive outcome (World : Type) :=
| Aborted (e : exn)
| Returned
| Looped (r : result World shell).
Arguments Aborted {World}.
Arguments Returned {World}.
Arguments Looped {World}.

(** Line 294: the first ten characters of a key longer than that. *)
Definition key_loaded (api_key : pystr) : startup_output :=
  if Nat.ltb 10 (List.length api_key)
  then SKeyLoaded (Some (firstn 10 api_key))
  else SKeyLoaded None.

(** Lines 300-305: the lines of [.env] that mention TAVILY, trimmed. *)
Definition show_dotenv (file : list pystr * option exn)
  : list startup_output :=
  SEnvContents
  :: List.map (fun line => SEnvLine (strip line))
       (List.filter (contains (py "TAVILY")) (fst file)).

(** Lines 292-305; the second component is the error of reading [.env]. *)
Definition report_key (env : surroundings)
  : list startup_output * option exn :=
  if Py.truthy_opt (environ_key env) then
    ([key_loaded (match environ_key env with Some k => k | None => [] end)],
     None)
  else
    match dotenv env with
    | Some file =>
        ([SNoKey; SDebugInfo; SCwd (getcwd env); SEnvExists true]
           ++ show_dotenv file,
         snd file)
    | None =>
        ([SNoKey; SDebugInfo; SCwd (getcwd env); SEnvExists false], None)
    end.

(** [except ValueError as e] *)
Definition isinstance_ValueError (e : exn) : bool :=
  match e with ValueError _ => true | _ => false end.

(** [main()], given what is typed at the prompts. *)
Definition main {World : Type}
  (remote : TavilyClient -> request -> World -> (exn + pyval) * World)
  (env : surroundings) (inputs : list stdin) (w : World)
  : list startup_output * outcome World :=
  let '(shown, failure) := report_key env in
  match failure with
  | Some e => (SBanner :: shown, Aborted e)
  | None =>
      match TavilyAgents_init None (environ_key env) with
      | inl e =>
          if isinstance_ValueError e
          then (SBanner :: shown ++ [SStartupError e; SHelp], Returned)
          else (SBanner :: shown, Aborted e)
      | inr agents =>
          (SBanner :: shown, Looped (main_loop remote agents inputs w))
      end
  end.

End Startup.

(** ** What the console accepts *)

(** [print] and the f-string it is given do not always succeed.  Standard
    output is taken to be open and UTF-8 (every line of the program holds
    characters outside ASCII).  Two failures remain, both raised where the
    line is printed: a string with a lone surrogate cannot be encoded
    ([UnicodeEncodeError], a subclass of [ValueError]), and [str] of an int
    of more than 4300 digits raises [ValueError].  Lengths and record
    numbers are machine-sized and always print. *)
Module Console.

(** A surrogate code point, U+D800 to U+DFFF. *)
Definition surrogate (c : N) : bool := ((55296 <=? c) && (c <=? 57343))%N.

(** A string that UTF-8 can encode. *)
Definition encodable (s : pystr) : bool :=
  forallb (fun c => negb (surrogate c)) s.

(** The smallest int that [str] refuses. *)
Definition limit : Z := (10 ^ 4300)%Z.

Definition int_too_long (z : Z) : bool := (limit <=? Z.abs z)%Z.

(** A number that large is an int (a float is far smaller); [repr] of a
    list or of a dictionary formats the numbers it holds. *)
Fixpoint long_int_in (v : pyval) : bool :=
  match v with
  | VNum q => int_too_long (Z.abs (Qnum q) / Z.pos (Qden q))
  | VList l => existsb long_int_in l
  | VDict d => existsb (fun kv => long_int_in (snd kv)) d
  | VNone | VBool _ | VStr _ => false
  end.

(** The two exceptions, as instances of [ValueError] (the program catches
    by [Exception] and by [ValueError] only); the message of the first
    leaves out the character and its position. *)
Definition UnicodeEncodeError : exn :=
  ValueError (py "'utf-8' codec can't encode character: "
              ++ py "surrogates not allowed").

Definition digits_exceeded : exn :=
  ValueError (py "Exceeds the limit (4300 digits) "
              ++ py "for integer string conversion").

(** What printing [str(v)] raises: a string is written as it is; inside a
    list or a dictionary strings are escaped by [repr]. *)
Definition str_value (v : pyval) : option exn :=
  match v with
  | VStr s => if encodable s then None else Some UnicodeEncodeError
  | _ => if long_int_in v then Some digits_exceeded else None
  end.

(** What printing [str(e)] raises: the message of the exception, or
    [repr] of the key for a [KeyError]. *)
Definition str_exn (e : exn) : option exn :=
  match e with
  | KeyError key => if long_int_in key then Some digits_exceeded else None
  | ValueError msg | RemoteError _ msg | BaseOnly _ msg =>
      if encodable msg then None else Some UnicodeEncodeError
  | _ => None
  end.

(** What printing a line raises, if anything; the f-string is formatted
    before the line is encoded. *)
Definition refuses (o : output) : option exn :=
  match o with
  | OSearching query =>
      if encodable query then None else Some UnicodeEncodeError
  | OCrawling url max_depth =>
      if int_too_long max_depth then Some digits_exceeded
      else if encodable url then None else Some UnicodeEncodeError
  | OTitle v | OUrl v | OScore v | OMainPage v | OContent v => str_value v
  | OFields keys =>
      if forallb encodable keys then None else Some UnicodeEncodeError
  | OError _ e => str_exn e
  | _ => None
  end.

(** The events of a trace whose lines the console accepts. *)
Definition accepted (t : list event) : Prop :=
  Forall (fun ev => match ev with
                    | Out o => refuses o = None
                    | Remote _ => True
                    end) t.

End Console.

(** A service whose failures can be reported: they derive from
    [Exception] and their message can be printed. *)
Definition reportable {World : Type}
  (remote : TavilyClient -> request -> World -> (exn + pyval) * World) : Prop :=
  forall c r w e w',
    remote c r w = (inl e, w') ->
    isinstance_Exception e = true /\ Console.str_exn e = None.

(** A local computation whose failures can be reported. *)
Definition tidy {World A : Type} (m : World -> result World A) : Prop :=
  forall w,
    world (m w) = w /\
    requests (trace (m w)) = [] /\
    forall e, value (m w) = inl e ->
              isinstance_Exception e = true /\ Console.str_exn e = None.

(** [m'] does what [m] does whenever the console accepts every line of
    [m]. *)
Definition agree {World A : Type} (m m' : World -> result World A) : Prop :=
  forall w, Console.accepted (trace (m w)) -> m' w = m w.

(** ** The program on the console *)

(** The agents and the menu loop once more, line for line, with [print]
    raising what the console refuses.  The definitions above are the same
    program on a console that accepts every line. *)
Module Strict.

Section Agents.

Variable World : Type.
Variable remote : TavilyClient -> request -> World -> (exn + pyval) * World.

Definition print (o : output) : M World unit :=
  fun w =>
    match Console.refuses o with
    | None => Result [Out o] w (inr tt)
    | Some e => Result [] w (inl e)
    end.

Notation "x <- m ;; k" := (bind m (fun x => k))
  (at level 61, m at next level, right associativity).
Notation "m ;; k" := (bind m (fun _ => k))
  (at level 61, right associativity).

(** *** [search_agent] *)

(** The body of the loop over the results (lines 116-139). *)
Definition search_result (i : nat) (result : pyval) : M World unit :=
  print ORuleTop ;;
  print (OResultNo i) ;;
  print ORule ;;
  title <- lift (Py.getitem result (py "title")) ;;
  print (OTitle title) ;;
  url <- lift (Py.getitem result (py "url")) ;;
  print (OUrl url) ;;
  score <- lift (Py.get result (py "score") NA) ;;
  print (OScore score) ;;
  content <- full_content result ;;
  content_length <- lift (Py.len content) ;;
  print (OContentLength content_length) ;;
  print OFullContentLabel ;;
  print ODash ;;
  print (OContent content) ;;
  print ODash ;;
  print OBlank ;;
  fields <- lift (Py.keys result) ;;
  print (OFields fields) ;;
  print OBlank.

(** Lines 105-142. *)
Definition search_display (response : pyval) : M World pyval :=
  results <- lift (Py.get response (py "results") (VList [])) ;;
  found <- lift (Py.len results) ;;
  print (OFound found) ;;
  items <- lift (Py.iter results) ;;
  for_enumerate 1 items search_result ;;
  ret response.

Definition search_agent (self : TavilyAgents) (query : pystr)
           (max_results : Z) : M World pyval :=
  print (OSearching query) ;;
  try_except
    (response <- call remote (client self)
                   (Search query max_results (py "advanced") true) ;;
     search_display response)
    (fun e => print (OError SearchAgent e) ;; ret VNone).

(** *** [extract_agent] *)

(** The body of the loop over the extracted records (lines 184-199). *)
Definition extract_result (i : nat) (result : pyval) : M World unit :=
  print ORuleTop ;;
  print (OExtractionNo i) ;;
  print ORule ;;
  url <- lift (Py.getitem result (py "url")) ;;
  print (OUrl url) ;;
  title <- lift (Py.get result (py "title") NA) ;;
  print (OTitle title) ;;
  raw_content <- lift (Py.get result (py "raw_content") (VStr [])) ;;
  content_length <- lift (Py.len raw_content) ;;
  print (OContentLength content_length) ;;
  print OExtractedLabel ;;
  print ODash ;;
  print (OContent raw_content) ;;
  print ODash ;;
  print OBlank.

(** Lines 182-201. *)
Definition extract_display (response : pyval) : M World pyval :=
  results <- lift (Py.get response (py "results") (VList [])) ;;
  items <- lift (Py.iter results) ;;
  for_enumerate 1 items extract_result ;;
  ret response.

Definition extract_agent (self : TavilyAgents) (urls : urls_arg)
  : M World pyval :=
  let urls := normalize_urls urls in
  print (OExtracting (List.length urls)) ;;
  try_except
    (response <- call remote (client self) (Extract urls None) ;;
     extract_display response)
    (fun e => print (OError ExtractAgent e) ;; ret VNone).

(** *** [crawl_agent] *)

(** Lines 244-261. *)
Definition crawl_main_page (response : pyval) : M World unit :=
  results <- lift (Py.getitem response (py "results")) ;;
  result <- lift (Py.first results) ;;
  print ORuleTop ;;
  url <- lift (Py.getitem result (py "url")) ;;
  print (OMainPage url) ;;
  print ORule ;;
  title <- lift (Py.get result (py "title") NA) ;;
  print (OTitle title) ;;
  content <- lift (Py.get result (py "raw_content") (VStr [])) ;;
  content_length <- lift (Py.len content) ;;
  print (OContentExtracted content_length) ;;
  print OCrawledLabel ;;
  print ODash ;;
  print (OContent content) ;;
  print ODash.

(** Lines 240-263. *)
Definition crawl_display (response : pyval) : M World pyval :=
  (if Py.truthy response then
     results <- lift (Py.get response (py "results") VNone) ;;
     if Py.truthy results then crawl_main_page response else ret tt
   else ret tt) ;;
  ret response.

Definition crawl_agent (self : TavilyAgents) (url : pystr) (max_depth : Z)
  : M World pyval :=
  print (OCrawling url max_depth) ;;
  try_except
    (response <- call remote (client self) (Extract [url] (Some true)) ;;
     crawl_display response)
    (fun e => print (OError CrawlAgent e) ;; ret VNone).

(** *** The menu loop of [main] (lines 323-375) *)

Definition step (agents : TavilyAgents) (p : prompt) (line : pystr)
  : M World shell :=
  match p with
  | AtChoice =>
      let choice := strip line in
      if PyStr.eqb choice (py "1") then ret (Waiting AtQuery)
      else if PyStr.eqb choice (py "2") then ret (Waiting AtUrls)
      else if PyStr.eqb choice (py "3") then ret (Waiting AtCrawlUrl)
      else if PyStr.eqb choice (py "4") then print OGoodbye ;; ret Exit
      else print OInvalidChoice ;; ret (Waiting AtContinue)
  | AtQuery =>
      let query := strip line in
      (if nonempty query then search_agent agents query 5 ;; ret tt
       else print OEmptyQuery) ;;
      ret (Waiting AtContinue)
  | AtUrls =>
      let url_input := strip line in
      (if nonempty url_input then
         let urls := List.map strip (split comma url_input) in
         extract_agent agents (UrlList urls) ;; ret tt
       else print OEmptyUrl) ;;
      ret (Waiting AtContinue)
  | AtCrawlUrl =>
      let url := strip line in
      (if nonempty url then crawl_agent agents url 2 ;; ret tt
       else print OEmptyUrl) ;;
      ret (Waiting AtContinue)
  | AtContinue =>
      print OMenu ;; ret (Waiting AtChoice)
  end.

Fixpoint run (agents : TavilyAgents) (inputs : list stdin) (s : shell)
  : M World shell :=
  match s with
  | Exit => ret Exit
  | Waiting p =>
      match inputs with
      | [] => ret (Waiting p)
      | EOF :: _ => raise EOFError
      | Line line :: rest => s' <- step agents p line ;; run agents rest s'
      end
  end.

Definition main_loop (agents : TavilyAgents) (inputs : list stdin)
  : M World shell :=
  print OMenu ;; run agents inputs (Waiting AtChoice).

End Agents.

Arguments print {World}.
Arguments search_result {World}.
Arguments search_display {World}.
Arguments search_agent {World}.
Arguments extract_result {World}.
Arguments extract_display {World}.
Arguments extract_agent {World}.
Arguments crawl_main_page {World}.
Arguments crawl_display {World}.
Arguments crawl_agent {World}.
Arguments step {World}.
Arguments run {World}.
Arguments main_loop {World}.

End Strict.

(** ** Text and failures that cannot be printed *)

Module Unprintable.

(** A string holding a lone surrogate, U+D800. *)
Definition lone_surrogate : pystr := py "bad " ++ [55296%N].

(** An error of the transport whose message cannot be printed. *)
Definition garbled_error : exn :=
  RemoteError (py "ConnectionError") lone_surrogate.

(** An int of 4301 digits, [10 ** 4300]. *)
Definition long_depth : Z := (10 ^ 4300)%Z.




End Unprintable.

(** * Properties *)

(** ** Strings *)

Lemma eqb_eq (a b : pystr) : PyStr.eqb a b = true <-> a = b.
Proof.
  revert b; induction a as [|x a IH]; intros [|y b]; simpl;
    try (split; [discriminate | congruence]).
  - split; reflexivity.
  - rewrite andb_true_iff, N.eqb_eq, IH. split.
    + intros [-> ->]; reflexivity.
    + intros H; injection H; auto.
Qed.

Lemma eqb_refl (a : pystr) : PyStr.eqb a a = true.
Proof. apply eqb_eq; reflexivity. Qed.

Lemma eqb_neq (a b : pystr) : PyStr.eqb a b = false <-> a <> b.
Proof.
  rewrite <- eqb_eq. destruct (PyStr.eqb a b); split; congruence.
Qed.

Lemma nonempty_true (s : pystr) : nonempty s = true <-> s <> [].
Proof. destruct s; simpl; split; congruence. Qed.

(** [split] never returns the empty list. *)
Lemma split_nonnil (sep : N) (s : pystr) : split sep s <> [].
Proof.
  induction s as [|c s IH]; simpl; [discriminate|].
  destruct (N.eqb c sep); [discriminate|].
  destruct (split sep s); [contradiction | discriminate].
Qed.

(** [split] returns one more piece than there are separators: no piece is
    dropped, empty or not. *)
Lemma split_length (sep : N) (s : pystr) :
  List.length (split sep s) = S (count_occ N.eq_dec s sep).
Proof.
  induction s as [|c s IH]; simpl; [reflexivity|].
  destruct (N.eqb_spec c sep) as [->|Hne].
  - destruct (N.eq_dec sep sep); [|contradiction]. simpl. now rewrite IH.
  - destruct (N.eq_dec c sep); [contradiction|].
    destruct (split sep s) eqn:E; [now destruct (split_nonnil sep s)|].
    simpl in *. exact IH.
Qed.

Example strip_both_ends :
  strip (py "  https://y.com	 ") = py "https://y.com".
Proof. reflexivity. Qed.

Example strip_keeps_inner_space : strip (py " a b ") = py "a b".
Proof. reflexivity. Qed.

Example strip_blank : strip (py "   ") = [].
Proof. reflexivity. Qed.

Example split_two_urls :
  split comma (py "https://x.com, https://y.com")
  = [py "https://x.com"; py " https://y.com"].
Proof. reflexivity. Qed.

Example split_empty : split comma [] = [[]].
Proof. reflexivity. Qed.

Example split_double_comma : split comma (py "a,,b") = [py "a"; []; py "b"].
Proof. reflexivity. Qed.

(** ** Traces *)

Lemma requests_app (t1 t2 : list event) :
  requests (t1 ++ t2) = requests t1 ++ requests t2.
Proof. apply flat_map_app. Qed.

Lemma displayed_content_app (t1 t2 : list event) :
  displayed_content (t1 ++ t2) = displayed_content t1 ++ displayed_content t2.
Proof. apply flat_map_app. Qed.

(** ** Sequencing *)

Section MonadFacts.

Context {World : Type}.
Lemma prepend_Result {A} t t' (w : World) (v : exn + A) :
  prepend t (Result t' w v) = Result (t ++ t') w v.
Proof. reflexivity. Qed.

Lemma prepend_nil {A} (r : result World A) : prepend [] r = r.
Proof. destruct r; reflexivity. Qed.

Lemma bind_print {B} (o : output) (k : unit -> M World B) (w : World) :
  bind (print o) k w = prepend [Out o] (k tt w).
Proof. reflexivity. Qed.

Lemma bind_ret {A B} (a : A) (k : A -> M World B) (w : World) :
  bind (ret a) k w = k a w.
Proof. unfold bind, ret; simpl. apply prepend_nil. Qed.

Lemma bind_lift_inr {A B} (x : exn + A) (a : A) (k : A -> M World B)
  (w : World) :
  x = inr a -> bind (lift x) k w = k a w.
Proof. intros ->. unfold bind, lift; simpl. apply prepend_nil. Qed.

Lemma bind_lift_inl {A B} (x : exn + A) (e : exn) (k : A -> M World B)
  (w : World) :
  x = inl e -> bind (lift x) k w = Result [] w (inl e).
Proof. intros ->. reflexivity. Qed.

(** A first step that returns is followed by the rest. *)
Lemma bind_returns {A B} (m : M World A) (k : A -> M World B) (w : World)
  t w1 a :
  m w = Result t w1 (inr a) -> bind m k w = prepend t (k a w1).
Proof. intros H. unfold bind. rewrite H. reflexivity. Qed.

(** A first step that raises ends the sequence. *)
Lemma bind_raises {A B} (m : M World A) (k : A -> M World B) (w : World)
  t w1 e :
  m w = Result t w1 (inl e) -> bind m k w = Result t w1 (inl e).
Proof. intros H. unfold bind. rewrite H. reflexivity. Qed.

End MonadFacts.

(** ** Errors of the operations on Python values *)

Module PyFacts.

Lemma getitem_error v k e :
  Py.getitem v k = inl e -> isinstance_Exception e = true.
Proof.
  destruct v; simpl; try (intros [= <-]; reflexivity).
  destruct (Py.lookup k d); intros [= <-]; reflexivity.
Qed.

Lemma get_error v k d e :
  Py.get v k d = inl e -> isinstance_Exception e = true.
Proof. destruct v; simpl; intros [= <-]; reflexivity. Qed.

Lemma len_error v e : Py.len v = inl e -> isinstance_Exception e = true.
Proof. destruct v; simpl; intros [= <-]; reflexivity. Qed.

Lemma keys_error v e : Py.keys v = inl e -> isinstance_Exception e = true.
Proof. destruct v; simpl; intros [= <-]; reflexivity. Qed.

Lemma iter_error v e : Py.iter v = inl e -> isinstance_Exception e = true.
Proof. destruct v; simpl; intros [= <-]; reflexivity. Qed.

Lemma first_error v e : Py.first v = inl e -> isinstance_Exception e = true.
Proof.
  destruct v as [| | |[|]|[|]|]; simpl; intros [= <-]; reflexivity.
Qed.

(** Subscripting with a string succeeds on dictionaries only. *)
Lemma getitem_inr v k x :
  Py.getitem v k = inr x -> exists d, v = VDict d /\ Py.lookup k d = Some x.
Proof.
  destruct v; simpl; try discriminate.
  destruct (Py.lookup k d) eqn:E; intros [= <-]. eauto.
Qed.

End PyFacts.

(** ** Local computations *)

Section LocalFacts.

Context {World : Type}.
Lemma local_ret {A} (a : A) : local (ret (World:=World) a).
Proof. intros w; simpl; repeat split; discriminate. Qed.

Lemma local_print (o : output) : local (print (World:=World) o).
Proof. intros w; simpl; repeat split; discriminate. Qed.

Lemma local_lift {A} (x : exn + A) :
  (forall e, x = inl e -> isinstance_Exception e = true) ->
  local (lift (World:=World) x).
Proof. intros H w; simpl; repeat split; exact H. Qed.

Lemma local_bind {A B} (m : M World A) (k : A -> M World B) :
  local m -> (forall a, local (k a)) -> local (bind m k).
Proof.
  intros Hm Hk w. unfold bind.
  destruct (Hm w) as (Hw & Hr & He).
  destruct (value (m w)) as [e|a] eqn:E; simpl.
  - repeat split; auto. intros e' [= <-]. auto.
  - destruct (Hk a (world (m w))) as (Hw' & Hr' & He').
    unfold prepend; simpl.
    rewrite requests_app, Hr, Hr', Hw'. repeat split; auto.
Qed.

Lemma local_if {A} (b : bool) (m1 m2 : M World A) :
  local m1 -> local m2 -> local (if b then m1 else m2).
Proof. destruct b; auto. Qed.

Lemma local_for_enumerate (body : nat -> pyval -> M World unit) items :
  (forall i x, local (body i x)) ->
  forall start, local (for_enumerate start items body).
Proof.
  intros Hb. induction items as [|x items IH]; intros start; simpl.
  - apply local_ret.
  - apply local_bind; auto.
Qed.

End LocalFacts.

Create HintDb local.
#[export] Hint Resolve local_ret local_print local_if : local.
#[export] Hint Resolve PyFacts.getitem_error PyFacts.get_error
  PyFacts.len_error PyFacts.keys_error PyFacts.iter_error
  PyFacts.first_error : local.

(** Splits a sequence of binds into its steps and closes each of them. *)
Ltac prove_local :=
  repeat first
    [ apply local_ret
    | apply local_print
    | apply local_lift; eauto with local
    | apply local_bind; [|intros]
    | apply local_if
    | apply local_for_enumerate; intros ].

Section AgentFacts.

Context {World : Type}.

Lemma local_full_content result : local (full_content (World:=World) result).
Proof. unfold full_content. prove_local. Qed.

Lemma local_search_result i result :
  local (search_result (World:=World) i result).
Proof. unfold search_result. prove_local. Qed.

Lemma local_extract_result i result :
  local (extract_result (World:=World) i result).
Proof. unfold extract_result. prove_local. Qed.

Lemma local_crawl_main_page response :
  local (crawl_main_page (World:=World) response).
Proof. unfold crawl_main_page. prove_local. Qed.

Lemma local_search_display response :
  local (search_display (World:=World) response).
Proof. unfold search_display. prove_local. Qed.

Lemma local_extract_display response :
  local (extract_display (World:=World) response).
Proof. unfold extract_display. prove_local. Qed.

Lemma local_crawl_display response :
  local (crawl_display (World:=World) response).
Proof. unfold crawl_display. prove_local. Qed.

End AgentFacts.

#[export] Hint Resolve local_search_display local_extract_display
  local_crawl_display : local.

(** ** A remote call under [try ... except Exception] *)

Section Guarded.

Context {World : Type}.
Variable remote : TavilyClient -> request -> World -> (exn + pyval) * World.

(** The shape shared by the three agents: the remote call, then local
    formatting, inside a [try] whose handler prints and returns [None]. *)
Let guarded (c : TavilyClient) (r : request) (K : pyval -> M World pyval)
    (a : agent) : M World pyval :=
  try_except (bind (call remote c r) K)
             (fun e => bind (print (OError a e)) (fun _ => ret VNone)).

Lemma call_answer c r w :
  call remote c r w
  = Result [Remote r] (snd (remote c r w)) (fst (remote c r w)).
Proof. unfold call. destruct (remote c r w); reflexivity. Qed.

Lemma guarded_caught c r K a w e w' :
  remote c r w = (inl e, w') ->
  isinstance_Exception e = true ->
  guarded c r K a w = Result [Remote r; Out (OError a e)] w' (inr VNone).
Proof.
  intros Hr He. unfold guarded, try_except.
  erewrite bind_raises by (rewrite call_answer, Hr; reflexivity).
  cbn [value]. rewrite He. reflexivity.
Qed.

Lemma guarded_escapes c r K a w e w' :
  remote c r w = (inl e, w') ->
  isinstance_Exception e = false ->
  guarded c r K a w = Result [Remote r] w' (inl e).
Proof.
  intros Hr He. unfold guarded, try_except.
  erewrite bind_raises by (rewrite call_answer, Hr; reflexivity).
  cbn [value]. rewrite He. reflexivity.
Qed.

(** When the call answers, the formatting code runs; an error in it is
    caught like an error of the call. *)
Lemma guarded_answered c r K a w response w' :
  remote c r w = (inr response, w') ->
  (forall response, local (K response)) ->
  guarded c r K a w
  = match value (K response w') with
    | inr v => Result (Remote r :: trace (K response w')) w' (inr v)
    | inl e => Result (Remote r :: trace (K response w')
                         ++ [Out (OError a e)]) w' (inr VNone)
    end.
Proof.
  intros Hr HK. unfold guarded, try_except.
  erewrite bind_returns by (rewrite call_answer, Hr; reflexivity).
  cbn [fst snd]. destruct (HK response w') as (Hw & _ & He).
  destruct (K response w') as [t w1 [e|v]]; simpl in *; subst w1.
  - rewrite (He e eq_refl). reflexivity.
  - reflexivity.
Qed.

Lemma guarded_requests c r K a w :
  (forall response, local (K response)) ->
  requests (trace (guarded c r K a w)) = [r].
Proof.
  intros HK. destruct (remote c r w) as [[e|response] w'] eqn:Hr.
  - destruct (isinstance_Exception e) eqn:He.
    + erewrite guarded_caught by eassumption. reflexivity.
    + erewrite guarded_escapes by eassumption. reflexivity.
  - erewrite guarded_answered by eassumption.
    destruct (HK response w') as (_ & Hq & _).
    destruct (value (K response w')); cbn [trace];
      change (Remote r :: ?t) with ([Remote r] ++ t);
      rewrite ?requests_app, Hq; reflexivity.
Qed.

(** *** The three agents *)

Lemma search_agent_requests self query n w :
  requests (trace (search_agent remote self query n w))
  = [Search query n (py "advanced") true].
Proof.
  unfold search_agent. rewrite bind_print.
  cbn [prepend trace requests flat_map app].
  apply guarded_requests. auto with local.
Qed.

Lemma extract_agent_requests self urls w :
  requests (trace (extract_agent remote self urls w))
  = [Extract (normalize_urls urls) None].
Proof.
  unfold extract_agent. rewrite bind_print.
  cbn [prepend trace requests flat_map app].
  apply guarded_requests. auto with local.
Qed.

Lemma crawl_agent_requests self url depth w :
  requests (trace (crawl_agent remote self url depth w))
  = [Extract [url] (Some true)].
Proof.
  unfold crawl_agent. rewrite bind_print.
  cbn [prepend trace requests flat_map app].
  apply guarded_requests. auto with local.
Qed.

End Guarded.

(** ** The error policy of the agents *)

(** C1, as stated, fails: [except Exception] does not match an exception
    that derives from [BaseException] only.  When the remote call is
    interrupted ([KeyboardInterrupt]), each of the three agents lets the
    exception through to its caller instead of returning [None]. *)
Lemma interrupt_escapes_agents :
  value (search_agent (Examples.failing KeyboardInterrupt) Examples.agents
           (py "q") 5 tt) = inl KeyboardInterrupt /\
  value (extract_agent (Examples.failing KeyboardInterrupt) Examples.agents
           (UrlStr (py "https://a")) tt) = inl KeyboardInterrupt /\
  value (crawl_agent (Examples.failing KeyboardInterrupt) Examples.agents
           (py "https://a") 2 tt) = inl KeyboardInterrupt.
Proof. repeat split; reflexivity. Qed.

(** ** Requests made by [extract_agent] and [crawl_agent] *)

(** C3: a single URL string and the one-element list holding it are the
    same call: [extract_agent] behaves identically on both, and the remote
    extract operation is asked for the one-element sequence [[u]]. *)
Theorem extract_agent_input_shape {World : Type}
  (remote : TavilyClient -> request -> World -> (exn + pyval) * World)
  (self : TavilyAgents) (u : pystr) (w : World) :
  extract_agent remote self (UrlStr u) w
  = extract_agent remote self (UrlList [u]) w /\
  requests (trace (extract_agent remote self (UrlStr u) w))
  = [Extract [u] None] /\
  requests (trace (extract_agent remote self (UrlList [u]) w))
  = [Extract [u] None].
Proof.
  split; [reflexivity|].
  split; apply extract_agent_requests.
Qed.

(** ** The constructor *)

(** C5: a non-empty credential makes the construction succeed, whether it
    is the constructor argument (which then wins) or comes from the
    environment while the argument is absent or empty; in both cases the
    object and its client hold that credential.  A non-empty credential in
    the environment makes the construction succeed whatever the argument
    is.  When both sources are absent or empty the constructor raises
    [ValueError], the configuration error of the program. *)
Theorem construction_needs_credential (key : pystr) :
  key <> [] ->
  (forall environ,
      TavilyAgents_init (Some key) environ
      = inr {| api_key := Some key;
               client := {| client_api_key := Some key |} |}) /\
  (forall arg,
      Py.truthy_opt arg = false ->
      TavilyAgents_init arg (Some key)
      = inr {| api_key := Some key;
               client := {| client_api_key := Some key |} |}) /\
  (forall arg, exists a, TavilyAgents_init arg (Some key) = inr a) /\
  (forall arg environ,
      Py.truthy_opt arg = false ->
      Py.truthy_opt environ = false ->
      TavilyAgents_init arg environ = inl (ValueError missing_key_message)).
Proof.
  intros Hk. apply nonempty_true in Hk.
  assert (Hs : Py.truthy_opt (Some key) = true) by exact Hk.
  unfold TavilyAgents_init, Py.or_opt. repeat split.
  - intros environ. rewrite Hs. simpl. rewrite Hk. reflexivity.
  - intros arg Ha. rewrite Ha, Hs. reflexivity.
  - intros arg. destruct (Py.truthy_opt arg) eqn:Ha; cbv zeta.
    + rewrite Ha. simpl. eauto.
    + rewrite Hs. simpl. eauto.
  - intros arg environ Ha He. rewrite Ha, He. reflexivity.
Qed.

Lemma construction_needs_credential_witness :
  py "tvly-demo" <> [] /\
  TavilyAgents_init None (Some (py "tvly-demo")) = inr Examples.agents /\
  TavilyAgents_init (Some []) None = inl (ValueError missing_key_message).
Proof.
  assert (H : py "tvly-demo" <> []) by discriminate.
  destruct (construction_needs_credential (py "tvly-demo") H)
    as (_ & Henv & _ & Hnone).
  split; [exact H|]. split.
  - apply Henv. reflexivity.
  - apply Hnone; reflexivity.
Defined.
(** ** Formatting one record *)

Lemma find_absent key d default :
  Py.lookup key d = None -> Py.find key d default = default.
Proof. unfold Py.find. intros ->. reflexivity. Qed.

Lemma find_present key d default x :
  Py.lookup key d = Some x -> Py.find key d default = x.
Proof. unfold Py.find. intros ->. reflexivity. Qed.

Section Records.

Context {World : Type}.

Lemma full_content_dict d (w : World) :
  full_content (VDict d) w
  = Result [] w
      (inr (let raw := Py.find (py "raw_content") d (VStr []) in
            if Py.truthy raw then raw
            else Py.find (py "content") d (VStr []))).
Proof.
  unfold full_content. erewrite bind_lift_inr by reflexivity.
  cbv zeta. destruct (Py.truthy _); reflexivity.
Qed.

(** A search result without a title stops the display at its header. *)
Lemma search_result_untitled i d (w : World) :
  Py.lookup (py "title") d = None ->
  search_result i (VDict d) w
  = Result [Out ORuleTop; Out (OResultNo i); Out ORule] w
      (inl (KeyError (VStr (py "title")))).
Proof.
  intros Ht. unfold search_result. rewrite !bind_print.
  erewrite bind_lift_inl by (unfold Py.getitem; rewrite Ht; reflexivity).
  reflexivity.
Qed.

End Records.

(** ** What [search_agent] displays for one record *)

(** A raw content that is [None] (a JSON null) also falls back to the
    summarized content. *)
Lemma null_raw_content_falls_back {World : Type} (w : World) d :
  Py.lookup (py "raw_content") d = Some VNone ->
  full_content (VDict d) w
  = Result [] w (inr (Py.find (py "content") d (VStr []))).
Proof.
  intros H. rewrite full_content_dict, (find_present _ _ _ _ H). reflexivity.
Qed.

(** The score of a search result with a title and a url is shown as
    [N/A] when the record has none. *)
Lemma score_placeholder {World : Type} (w : World) i d title url :
  Py.lookup (py "title") d = Some title ->
  Py.lookup (py "url") d = Some url ->
  Py.lookup (py "score") d = None ->
  In (Out (OScore NA)) (trace (search_result i (VDict d) w)).
Proof.
  intros Ht Hu Hs. unfold search_result. rewrite !bind_print.
  erewrite bind_lift_inr by (unfold Py.getitem; rewrite Ht; reflexivity).
  rewrite !bind_print.
  erewrite bind_lift_inr by (unfold Py.getitem; rewrite Hu; reflexivity).
  rewrite !bind_print.
  erewrite bind_lift_inr by reflexivity.
  rewrite !bind_print, (find_absent _ _ _ Hs).
  cbn [prepend trace app In]. auto 10.
Qed.

(** C6, on the code: a search result without a title is not displayed.
    [search_agent] reads [result['title']], so on a response whose only
    record has a url and content but no title the display stops after the
    record header with [KeyError('title')], the agent prints the failure
    message and returns [None].  [extract_agent], given the same response,
    displays the record with the title placeholder [N/A]. *)
Theorem search_agent_untitled_record :
  search_agent (Examples.answering Examples.untitled_response)
    Examples.agents (py "q") 5 tt
  = Result [Out (OSearching (py "q"));
            Remote (Search (py "q") 5 (py "advanced") true);
            Out (OFound 1); Out ORuleTop; Out (OResultNo 1);
            Out ORule;
            Out (OError SearchAgent (KeyError (VStr (py "title"))))]
      tt (inr VNone) /\
  extract_agent (Examples.answering Examples.untitled_response)
    Examples.agents (UrlStr (py "https://a")) tt
  = Result [Out (OExtracting 1);
            Remote (Extract [py "https://a"] None);
            Out ORuleTop; Out (OExtractionNo 1); Out ORule;
            Out (OUrl (VStr (py "https://a"))); Out (OTitle NA);
            Out (OContentLength 0); Out OExtractedLabel; Out ODash;
            Out (OContent (VStr [])); Out ODash; Out OBlank]
      tt (inr Examples.untitled_response).
Proof. split; vm_compute; reflexivity. Qed.

(** ** What [extract_agent] asks for and displays *)

(** ** The menu loop *)

Section Shell.

Context {World : Type}.
Variable remote : TavilyClient -> request -> World -> (exn + pyval) * World.
Variable agents : TavilyAgents.

Lemma run_Line p line rest (w : World) :
  run remote agents (Line line :: rest) (Waiting p) w
  = bind (step remote agents p line) (run remote agents rest) w.
Proof. reflexivity. Qed.

Lemma main_loop_value inputs (w : World) :
  value (main_loop remote agents inputs w)
  = value (run remote agents inputs (Waiting AtChoice) w).
Proof. reflexivity. Qed.

Lemma main_loop_trace inputs (w : World) :
  trace (main_loop remote agents inputs w)
  = Out OMenu :: trace (run remote agents inputs (Waiting AtChoice) w).
Proof. reflexivity. Qed.

(** An agent call whose result is dropped, followed by the next state. *)
Lemma call_then_wait {A} (m : World -> result World A) (s : shell) w :
  bind (bind m (fun _ => ret tt)) (fun _ => ret s) w
  = Result (trace (m w)) (world (m w))
      (match value (m w) with inl e => inl e | inr _ => inr s end).
Proof.
  unfold bind. destruct (m w) as [t w1 [e|v]]; simpl; [reflexivity|].
  unfold prepend; simpl. rewrite !app_nil_r. reflexivity.
Qed.

Lemma step_AtChoice line (w : World) :
  step remote agents AtChoice line w
  = let choice := strip line in
    if PyStr.eqb choice (py "1") then Result [] w (inr (Waiting AtQuery))
    else if PyStr.eqb choice (py "2") then Result [] w (inr (Waiting AtUrls))
    else if PyStr.eqb choice (py "3")
         then Result [] w (inr (Waiting AtCrawlUrl))
    else if PyStr.eqb choice (py "4") then Result [Out OGoodbye] w (inr Exit)
    else Result [Out OInvalidChoice] w (inr (Waiting AtContinue)).
Proof.
  unfold step. cbv zeta.
  repeat (destruct (PyStr.eqb (strip line) _); [reflexivity|]).
  reflexivity.
Qed.

Lemma step_AtContinue line (w : World) :
  step remote agents AtContinue line w
  = Result [Out OMenu] w (inr (Waiting AtChoice)).
Proof. reflexivity. Qed.

Lemma step_AtQuery line (w : World) :
  nonempty (strip line) = true ->
  step remote agents AtQuery line w
  = let r := search_agent remote agents (strip line) 5 w in
    Result (trace r) (world r)
      (match value r with
       | inl e => inl e
       | inr _ => inr (Waiting AtContinue)
       end).
Proof. intros H. unfold step. cbv zeta. rewrite H. apply call_then_wait. Qed.

Lemma step_AtUrls line (w : World) :
  nonempty (strip line) = true ->
  step remote agents AtUrls line w
  = let r := extract_agent remote agents
               (UrlList (List.map strip (split comma (strip line)))) w in
    Result (trace r) (world r)
      (match value r with
       | inl e => inl e
       | inr _ => inr (Waiting AtContinue)
       end).
Proof. intros H. unfold step. cbv zeta. rewrite H. apply call_then_wait. Qed.

Lemma step_AtCrawlUrl line (w : World) :
  nonempty (strip line) = true ->
  step remote agents AtCrawlUrl line w
  = let r := crawl_agent remote agents (strip line) 2 w in
    Result (trace r) (world r)
      (match value r with
       | inl e => inl e
       | inr _ => inr (Waiting AtContinue)
       end).
Proof. intros H. unfold step. cbv zeta. rewrite H. apply call_then_wait. Qed.

(** An empty line at an action prompt: the error message, and no call. *)
Lemma step_empty_line p line (w : World) :
  p = AtQuery \/ p = AtUrls \/ p = AtCrawlUrl ->
  nonempty (strip line) = false ->
  step remote agents p line w
  = Result [Out (match p with AtQuery => OEmptyQuery | _ => OEmptyUrl end)]
      w (inr (Waiting AtContinue)).
Proof.
  intros [->|[->| ->]] H; unfold step; cbv zeta; rewrite H; reflexivity.
Qed.

(** [break] is reached at the menu prompt, on a line that trims to "4". *)
Lemma step_Exit p line (w : World) :
  value (step remote agents p line w) = inr Exit
  <-> p = AtChoice /\ strip line = py "4".
Proof.
  split.
  - destruct p.
    + rewrite step_AtChoice. cbv zeta.
      destruct (PyStr.eqb (strip line) (py "1")); [discriminate|].
      destruct (PyStr.eqb (strip line) (py "2")); [discriminate|].
      destruct (PyStr.eqb (strip line) (py "3")); [discriminate|].
      destruct (PyStr.eqb (strip line) (py "4")) eqn:E; [|discriminate].
      apply eqb_eq in E. auto.
    + destruct (nonempty (strip line)) eqn:E.
      * rewrite step_AtQuery by exact E. cbv zeta. cbn [value].
        destruct (value _); discriminate.
      * rewrite step_empty_line by auto. discriminate.
    + destruct (nonempty (strip line)) eqn:E.
      * rewrite step_AtUrls by exact E. cbv zeta. cbn [value].
        destruct (value _); discriminate.
      * rewrite step_empty_line by auto. discriminate.
    + destruct (nonempty (strip line)) eqn:E.
      * rewrite step_AtCrawlUrl by exact E. cbv zeta. cbn [value].
        destruct (value _); discriminate.
      * rewrite step_empty_line by auto. discriminate.
    + discriminate.
  - intros [-> H]. rewrite step_AtChoice. cbv zeta. rewrite H. reflexivity.
Qed.

(** The loop is left through [break] only after a line that trims to "4"
    was read at the menu prompt. *)
Lemma run_Exit_inv inputs s (w : World) :
  value (run remote agents inputs s w) = inr Exit ->
  s = Exit \/
  exists before line after,
    inputs = before ++ Line line :: after /\
    strip line = py "4" /\
    value (run remote agents before s w) = inr (Waiting AtChoice).
Proof.
  revert s w. induction inputs as [|[line|] rest IH]; intros [p|] w H;
    try (left; reflexivity); try discriminate.
  rewrite run_Line in H.
  destruct (step remote agents p line w) as [t w1 [e|s']] eqn:E.
  - erewrite bind_raises in H by exact E. discriminate.
  - erewrite bind_returns in H by exact E. cbn [value prepend] in H.
    right. destruct (IH s' w1 H) as [->|(before & l & after & -> & Hl & Hb)].
    + assert (Hs : value (step remote agents p line w) = inr Exit)
        by (rewrite E; reflexivity).
      apply step_Exit in Hs. destruct Hs as [-> Hs].
      exists [], line, rest. auto.
    + exists (Line line :: before), l, after. repeat split; auto.
      rewrite run_Line. erewrite bind_returns by exact E. exact Hb.
Qed.

End Shell.

(** ** The extract path of the menu *)

(** C10: at the URL prompt, a line that is not empty once trimmed is split
    on commas, each piece is trimmed and none is dropped: [extract_agent] is
    called with that list, which has one more element than the trimmed line
    has commas, and the list goes unchanged into the remote request; empty
    pieces are in it as empty strings. *)
Theorem shell_keeps_empty_urls {World : Type}
  (remote : TavilyClient -> request -> World -> (exn + pyval) * World)
  (agents : TavilyAgents) (line : pystr) (w : World) :
  strip line <> [] ->
  let urls := List.map strip (split comma (strip line)) in
  let r := extract_agent remote agents (UrlList urls) w in
  step remote agents AtUrls line w
  = Result (trace r) (world r)
      (match value r with
       | inl e => inl e
       | inr _ => inr (Waiting AtContinue)
       end) /\
  requests (trace (step remote agents AtUrls line w)) = [Extract urls None] /\
  List.length urls = S (count_occ N.eq_dec (strip line) comma).
Proof.
  intros H urls r. apply nonempty_true in H.
  rewrite (step_AtUrls remote agents line w H). cbv zeta. cbn [trace].
  split; [reflexivity|]. split.
  - apply extract_agent_requests.
  - unfold urls. rewrite length_map. apply split_length.
Qed.

Lemma shell_keeps_empty_urls_witness :
  strip (py "a,,b") <> [] /\
  requests (trace (step (Examples.failing Examples.connection_error)
                     Examples.agents AtUrls (py "a,,b") tt))
  = [Extract [py "a"; []; py "b"] None] /\
  requests (trace (step (Examples.failing Examples.connection_error)
                     Examples.agents AtUrls (py ",") tt))
  = [Extract [[]; []] None].
Proof.
  assert (H1 : strip (py "a,,b") <> []) by (vm_compute; discriminate).
  assert (H2 : strip (py ",") <> []) by (vm_compute; discriminate).
  split; [exact H1|]. split.
  - exact (proj1 (proj2 (shell_keeps_empty_urls
                           (Examples.failing Examples.connection_error)
                           Examples.agents (py "a,,b") tt H1))).
  - exact (proj1 (proj2 (shell_keeps_empty_urls
                           (Examples.failing Examples.connection_error)
                           Examples.agents (py ",") tt H2))).
Defined.

(** ** Leaving the menu loop *)

Lemma bind_value {World A B : Type} (m : World -> result World A)
  (k : A -> World -> result World B) (w : World) (a : A) :
  value (m w) = inr a ->
  value (bind m k w) = value (k a (world (m w))).
Proof. intros H. unfold bind. rewrite H. reflexivity. Qed.

(** C8, as stated, fails: the loop is also left, by an exception that
    nothing catches, when standard input ends at a prompt ([EOFError], here
    after the invalid choice "9"), and when the remote call of an agent is
    interrupted; in neither run was a line trimming to "4" read. *)
Lemma menu_loop_left_without_4 :
  value (main_loop (Examples.answering Examples.untitled_response)
           Examples.agents [Line (py "9"); EOF] tt) = inl EOFError /\
  value (main_loop (Examples.failing KeyboardInterrupt) Examples.agents
           [Line (py "1"); Line (py "q")] tt) = inl KeyboardInterrupt.
Proof. split; reflexivity. Qed.

(** * Further properties of the code *)

(** ** Trimming and splitting *)

Lemma lstrip_split (s : pystr) :
  exists blanks,
    s = blanks ++ lstrip s /\ Forall (fun c => isspace c = true) blanks.
Proof.
  induction s as [|c s (blanks & Hs & Hb)]; simpl.
  - exists []. auto.
  - destruct (isspace c) eqn:E.
    + exists (c :: blanks). split; [simpl; congruence | constructor; auto].
    + exists []. auto.
Qed.

Lemma lstrip_head (s : pystr) c t : lstrip s = c :: t -> isspace c = false.
Proof.
  induction s as [|x s IH]; simpl; [discriminate|].
  destruct (isspace x) eqn:E; [exact IH|]. intros [= <- _]. exact E.
Qed.

Lemma lstrip_fixed (s : pystr) :
  (forall c t, s = c :: t -> isspace c = false) -> lstrip s = s.
Proof.
  destruct s as [|c t]; [reflexivity|]. intros H. simpl.
  rewrite (H c t eq_refl). reflexivity.
Qed.

(** A trimmed string neither starts nor ends with whitespace. *)
Lemma strip_head (s : pystr) c t : strip s = c :: t -> isspace c = false.
Proof.
  unfold strip, rstrip. intros H.
  destruct (lstrip_split (rev (lstrip s))) as (blanks & Hs & _).
  set (b := lstrip (rev (lstrip s))) in *.
  assert (Ha : lstrip s = rev b ++ rev blanks).
  { rewrite <- rev_app_distr, <- Hs, rev_involutive. reflexivity. }
  rewrite H in Ha. simpl in Ha. eapply lstrip_head. exact Ha.
Qed.

Lemma strip_last (s : pystr) c t : strip s = t ++ [c] -> isspace c = false.
Proof.
  unfold strip, rstrip. intros H.
  apply (f_equal (@rev N)) in H. rewrite rev_involutive, rev_app_distr in H.
  simpl in H. eapply lstrip_head. exact H.
Qed.

Lemma strip_idempotent (s : pystr) : strip (strip s) = strip s.
Proof.
  assert (Hl : lstrip (strip s) = strip s)
    by (apply lstrip_fixed; intros c t; apply strip_head).
  unfold strip at 1. rewrite Hl. unfold rstrip.
  rewrite lstrip_fixed; [apply rev_involutive|].
  intros c t H. apply (strip_last s c (rev t)).
  rewrite <- (rev_involutive (strip s)), H. reflexivity.
Qed.

Lemma lstrip_incl (s : pystr) c : In c (lstrip s) -> In c s.
Proof.
  induction s as [|x s IH]; simpl; [auto|].
  destruct (isspace x); simpl; auto.
Qed.

(** Trimming only removes characters. *)
Lemma strip_incl (s : pystr) c : In c (strip s) -> In c s.
Proof.
  unfold strip, rstrip. intros H.
  apply in_rev, lstrip_incl in H. apply in_rev in H.
  apply lstrip_incl. exact H.
Qed.

(** No piece of a split holds the separator. *)
Lemma split_no_sep (sep : N) (s piece : pystr) :
  In piece (split sep s) -> ~ In sep piece.
Proof.
  revert piece. induction s as [|c s IH]; simpl; intros piece H.
  - destruct H as [<-|[]]. auto.
  - destruct (N.eqb_spec c sep) as [->|Hne].
    + destruct H as [<-|H]; auto.
    + destruct (split sep s) as [|p ps] eqn:E.
      * destruct H as [<-|[]]. simpl. intuition.
      * destruct H as [<-|H].
        -- simpl. intros [Hc|Hp]; [contradiction|].
           apply (IH p); simpl; auto.
        -- apply IH. simpl. auto.
Qed.

(** ** More on sequencing *)

Lemma bind_assoc {World A B C : Type} (m : M World A) (f : A -> M World B)
  (g : B -> M World C) (w : World) :
  bind (bind m f) g w = bind m (fun a => bind (f a) g) w.
Proof.
  unfold bind. destruct (m w) as [t w1 [e|a]]; cbn [value trace world prepend];
    [reflexivity|].
  destruct (f a w1) as [t' w2 [e|b]]; cbn [value trace world prepend];
    [reflexivity|].
  destruct (g b w2) as [t'' w3 v]. unfold prepend; cbn [value trace world].
  rewrite app_assoc. reflexivity.
Qed.

Lemma bind_ext {World A B : Type} (m : M World A) (k k' : A -> M World B)
  (w : World) :
  (forall a w', k a w' = k' a w') -> bind m k w = bind m k' w.
Proof.
  intros H. unfold bind. destruct (value (m w)); [reflexivity|].
  rewrite H. reflexivity.
Qed.

Lemma bind_trace {World A B : Type} (m : M World A) (k : A -> M World B)
  (w : World) :
  trace (bind m k w)
  = trace (m w) ++ match value (m w) with
                   | inl _ => []
                   | inr a => trace (k a (world (m w)))
                   end.
Proof.
  unfold bind. destruct (value (m w)); cbn [trace prepend];
    [rewrite app_nil_r|]; reflexivity.
Qed.

(** ** The menu loop, line by line *)

Section ShellMore.

Context {World : Type}.
Variable remote : TavilyClient -> request -> World -> (exn + pyval) * World.
Variable agents : TavilyAgents.

Lemma run_Exit inputs (w : World) :
  run remote agents inputs Exit w = Result [] w (inr Exit).
Proof. destruct inputs; reflexivity. Qed.

(** What one line lets the loop ask of the remote service. *)
Lemma step_requests p line (w : World) :
  requests (trace (step remote agents p line w))
  = match p with
    | AtQuery =>
        if nonempty (strip line)
        then [Search (strip line) 5 (py "advanced") true] else []
    | AtUrls =>
        if nonempty (strip line)
        then [Extract (List.map strip (split comma (strip line))) None]
        else []
    | AtCrawlUrl =>
        if nonempty (strip line)
        then [Extract [strip line] (Some true)] else []
    | AtChoice | AtContinue => []
    end.
Proof.
  destruct p.
  - rewrite step_AtChoice. cbv zeta.
    repeat (destruct (PyStr.eqb (strip line) _); [reflexivity|]).
    reflexivity.
  - destruct (nonempty (strip line)) eqn:E.
    + rewrite step_AtQuery by exact E. apply search_agent_requests.
    + rewrite step_empty_line by auto. reflexivity.
  - destruct (nonempty (strip line)) eqn:E.
    + rewrite step_AtUrls by exact E. apply extract_agent_requests.
    + rewrite step_empty_line by auto. reflexivity.
  - destruct (nonempty (strip line)) eqn:E.
    + rewrite step_AtCrawlUrl by exact E. apply crawl_agent_requests.
    + rewrite step_empty_line by auto. reflexivity.
  - reflexivity.
Qed.

(** Where a line that was fully handled leaves the loop. *)
Lemma step_next p line (w : World) s :
  value (step remote agents p line w) = inr s ->
  match p with
  | AtChoice => True
  | AtQuery | AtUrls | AtCrawlUrl => s = Waiting AtContinue
  | AtContinue => s = Waiting AtChoice
  end.
Proof.
  destruct p; [auto| | | |intros [= <-]; reflexivity];
    (destruct (nonempty (strip line)) eqn:E;
     [|rewrite step_empty_line by auto; intros [= <-]; reflexivity]).
  - rewrite step_AtQuery by exact E. cbv zeta. cbn [value].
    destruct (value _); [discriminate|]. intros [= <-]. reflexivity.
  - rewrite step_AtUrls by exact E. cbv zeta. cbn [value].
    destruct (value _); [discriminate|]. intros [= <-]. reflexivity.
  - rewrite step_AtCrawlUrl by exact E. cbv zeta. cbn [value].
    destruct (value _); [discriminate|]. intros [= <-]. reflexivity.
Qed.

(** A request takes two lines, the choice and its argument; the argument
    prompt is one line ahead. *)
Lemma run_requests_bound inputs s (w : World) :
  (2 * List.length (requests (trace (run remote agents inputs s w)))
   <= List.length inputs
      + match s with
        | Waiting AtQuery | Waiting AtUrls | Waiting AtCrawlUrl => 1
        | _ => 0
        end)%nat.
Proof.
  revert s w. induction inputs as [|[line|] rest IH]; intros [p|] w;
    try (rewrite run_Exit; cbn; lia); try (cbn; lia).
  rewrite run_Line, bind_trace, requests_app, length_app.
  pose proof (step_requests p line w) as Hr.
  pose proof (step_next p line w) as Hn.
  destruct (value (step remote agents p line w)) as [e|s'].
  - rewrite Hr.
    destruct p; try destruct (nonempty (strip line));
      cbn [List.length app requests flat_map]; lia.
  - specialize (IH s' (world (step remote agents p line w))).
    specialize (Hn s' eq_refl). rewrite Hr.
    destruct p; try subst s'; try destruct (nonempty (strip line));
      cbn [List.length app requests flat_map] in *; try lia.
    all: destruct s' as [[]|]; lia.
Qed.

End ShellMore.

(** ** What the formatting code prints *)

Lemma result_numbers_app (t1 t2 : list event) :
  result_numbers (t1 ++ t2) = result_numbers t1 ++ result_numbers t2.
Proof. apply flat_map_app. Qed.

Lemma errors_shown_app (t1 t2 : list event) :
  errors_shown (t1 ++ t2) = errors_shown t1 ++ errors_shown t2.
Proof. apply flat_map_app. Qed.

Section EmitsFacts.

Context {World : Type}.
Variable P : event -> Prop.

Lemma emits_ret {A} (a : A) : emits P (ret (World:=World) a).
Proof. intros w. constructor. Qed.

Lemma emits_lift {A} (x : exn + A) : emits P (lift (World:=World) x).
Proof. intros w. constructor. Qed.

Lemma emits_print (o : output) : P (Out o) -> emits P (print (World:=World) o).
Proof. intros H w. repeat constructor. exact H. Qed.

Lemma emits_bind {A B} (m : M World A) (k : A -> M World B) :
  emits P m -> (forall a, emits P (k a)) -> emits P (bind m k).
Proof.
  intros Hm Hk w. rewrite bind_trace. apply Forall_app. split; [apply Hm|].
  destruct (value (m w)); [constructor | apply Hk].
Qed.

Lemma emits_if {A} (b : bool) (m1 m2 : M World A) :
  emits P m1 -> emits P m2 -> emits P (if b then m1 else m2).
Proof. destruct b; auto. Qed.

Lemma emits_for_enumerate (body : nat -> pyval -> M World unit) items :
  (forall i x, emits P (body i x)) ->
  forall start, emits P (for_enumerate start items body).
Proof.
  intros Hb. induction items as [|x items IH]; intros start; simpl.
  - apply emits_ret.
  - apply emits_bind; auto.
Qed.

End EmitsFacts.

(** Splits a sequence of binds; what is left is [P] of each line printed. *)
Ltac prove_emits :=
  repeat first
    [ apply emits_ret
    | apply emits_lift
    | apply emits_print
    | apply emits_bind; [|intros]
    | apply emits_if
    | apply emits_for_enumerate; intros ].

Lemma flat_map_nil {A B : Type} (f : A -> list B) (l : list A) :
  Forall (fun x => f x = []) l -> flat_map f l = [].
Proof.
  induction 1 as [|x l Hx _ IH]; simpl; [reflexivity|].
  rewrite Hx, IH. reflexivity.
Qed.

Lemma bind_value_inv {World A B : Type} (m : M World A) (k : A -> M World B)
  (w : World) (b : B) :
  value (bind m k w) = inr b ->
  exists a, value (m w) = inr a /\ value (k a (world (m w))) = inr b.
Proof.
  unfold bind. destruct (value (m w)) as [e|a]; [discriminate|].
  cbn [value prepend]. eauto.
Qed.

Section DisplayFacts.

Context {World : Type}.

(** The formatting code prints no failure line. *)
Lemma search_display_no_error response (w : World) :
  errors_shown (trace (search_display response w)) = [].
Proof.
  apply flat_map_nil. revert w.
  change (emits (fun ev => match ev with
                           | Out (OError a e) => [(a, e)]
                           | _ => [] end = [])
            (search_display (World:=World) response)).
  unfold search_display. prove_emits; reflexivity.
Qed.

Lemma extract_display_no_error response (w : World) :
  errors_shown (trace (extract_display response w)) = [].
Proof.
  apply flat_map_nil. revert w.
  change (emits (fun ev => match ev with
                           | Out (OError a e) => [(a, e)]
                           | _ => [] end = [])
            (extract_display (World:=World) response)).
  unfold extract_display. prove_emits; reflexivity.
Qed.

(** A display that ends well hands back the response, a dictionary. *)
Lemma search_display_value response (w : World) v :
  value (search_display response w) = inr v ->
  v = response /\ exists d, response = VDict d.
Proof.
  unfold search_display. intros H.
  apply bind_value_inv in H. destruct H as (results & H1 & H).
  apply bind_value_inv in H. destruct H as (found & _ & H).
  apply bind_value_inv in H. destruct H as (? & _ & H).
  apply bind_value_inv in H. destruct H as (items & _ & H).
  apply bind_value_inv in H. destruct H as (? & _ & H).
  injection H as <-. split; [reflexivity|].
  destruct response; try discriminate H1. eauto.
Qed.

Lemma extract_display_value response (w : World) v :
  value (extract_display response w) = inr v ->
  v = response /\ exists d, response = VDict d.
Proof.
  unfold extract_display. intros H.
  apply bind_value_inv in H. destruct H as (results & H1 & H).
  apply bind_value_inv in H. destruct H as (items & _ & H).
  apply bind_value_inv in H. destruct H as (? & _ & H).
  injection H as <-. split; [reflexivity|].
  destruct response; try discriminate H1. eauto.
Qed.

End DisplayFacts.

(** ** What an agent hands back *)

Section AgentsMore.

Context {World : Type}.
Variable remote : TavilyClient -> request -> World -> (exn + pyval) * World.


(** Under the [try]: [None] is handed back exactly when a failure line was
    printed, and anything else is the answer of the call. *)
Lemma guarded_result_shape c r (K : pyval -> M World pyval) a (w : World) v :
  (forall response, local (K response)) ->
  (forall response w', errors_shown (trace (K response w')) = []) ->
  (forall response w' v',
      value (K response w') = inr v' ->
      v' = response /\ exists d, response = VDict d) ->
  let run_it :=
    try_except (bind (call remote c r) K)
      (fun e => bind (print (OError a e)) (fun _ => ret VNone)) w in
  value run_it = inr v ->
  (v = VNone <-> errors_shown (trace run_it) <> []) /\
  (v <> VNone -> exists w', remote c r w = (inr v, w')).
Proof.
  intros HK Hq Hv run_it. subst run_it.
  destruct (remote c r w) as [[e|response] w'] eqn:Hr.
  - destruct (isinstance_Exception e) eqn:He.
    + erewrite guarded_caught by eassumption. cbn [value trace].
      intros [= <-]. split; [|congruence].
      split; [discriminate | reflexivity].
    + erewrite guarded_escapes by eassumption. discriminate.
  - erewrite guarded_answered by eassumption.
    destruct (value (K response w')) as [e|v'] eqn:E; cbn [value trace].
    + intros [= <-]. split; [|congruence]. split; [|reflexivity].
      intros _. change (Remote r :: ?t) with ([Remote r] ++ t).
      rewrite !errors_shown_app, Hq. discriminate.
    + intros [= <-]. destruct (Hv _ _ _ E) as (-> & d & Hd).
      split; [|eauto]. subst response.
      change (Remote r :: ?t) with ([Remote r] ++ t).
      rewrite errors_shown_app, Hq. split; [discriminate|].
      intros H. contradiction H. reflexivity.
Qed.

End AgentsMore.



(** X3: when [search_agent] or [extract_agent] returns, it returns [None]
    exactly when it printed a failure line; any other value is what the
    remote call answered. *)
Theorem None_means_a_failure_was_shown {World : Type}
  (remote : TavilyClient -> request -> World -> (exn + pyval) * World)
  (self : TavilyAgents) (w : World) (v : pyval) :
  (forall query n,
      let r := search_agent remote self query n w in
      value r = inr v ->
      (v = VNone <-> errors_shown (trace r) <> []) /\
      (v <> VNone ->
       exists w', remote (client self)
                    (Search query n (py "advanced") true) w = (inr v, w'))) /\
  (forall urls,
      let r := extract_agent remote self urls w in
      value r = inr v ->
      (v = VNone <-> errors_shown (trace r) <> []) /\
      (v <> VNone ->
       exists w', remote (client self)
                    (Extract (normalize_urls urls) None) w = (inr v, w'))).
Proof.
  split.
  - intros query n r. subst r. unfold search_agent.
    rewrite bind_print. cbn [value trace prepend].
    change ([Out (OSearching query)] ++ ?t) with (Out (OSearching query) :: t).
    cbn [errors_shown flat_map app].
    apply (guarded_result_shape remote); auto with local.
    + apply search_display_no_error.
    + apply search_display_value.
  - intros urls r. subst r. unfold extract_agent.
    rewrite bind_print. cbn [value trace prepend].
    change ([Out ?o] ++ ?t) with (Out o :: t).
    cbn [errors_shown flat_map app].
    apply (guarded_result_shape remote); auto with local.
    + apply extract_display_no_error.
    + apply extract_display_value.
Qed.

Lemma None_means_a_failure_was_shown_witness :
  let r := search_agent (Examples.answering Examples.untitled_response)
             Examples.agents (py "q") 5 tt in
  value r = inr VNone /\ errors_shown (trace r) <> [].
Proof.
  intros r.
  assert (H : value r = inr VNone) by reflexivity.
  split; [exact H|].
  destruct (None_means_a_failure_was_shown
              (Examples.answering Examples.untitled_response)
              Examples.agents tt VNone) as (Hs & _).
  apply (Hs (py "q") 5%Z H). reflexivity.
Defined.

(** ** Edge cases of the displays *)

Lemma bind_then_ret {World A B : Type} (m : M World A) (x : B) (w : World) :
  bind m (fun _ => ret x) w
  = Result (trace (m w)) (world (m w))
      (match value (m w) with inl e => inl e | inr _ => inr x end).
Proof.
  unfold bind. destruct (m w) as [t w1 [e|a]]; cbn [value trace world];
    [reflexivity|].
  unfold prepend, ret; cbn [value trace world]. rewrite app_nil_r.
  reflexivity.
Qed.

Lemma lookup_nonempty key d x : Py.lookup key d = Some x -> d <> [].
Proof. destruct d; [discriminate|discriminate]. Qed.

(** With a non-empty list of results, the crawl display is the display of
    its first record. *)
Lemma crawl_display_first {World : Type} (w : World) env first rest :
  Py.lookup (py "results") env = Some (VList (first :: rest)) ->
  crawl_display (VDict env) w
  = let r := crawl_main_page (VDict [(py "results", VList [first])]) w in
    Result (trace r) (world r)
      (match value r with inl e => inl e | inr _ => inr (VDict env) end).
Proof.
  intros H. unfold crawl_display.
  assert (Ht : Py.truthy (VDict env) = true)
    by (destruct env; [discriminate H|reflexivity]).
  rewrite Ht.
  assert (Hm : crawl_main_page (VDict env) w
               = crawl_main_page (VDict [(py "results", VList [first])]) w).
  { unfold crawl_main_page.
    erewrite (bind_lift_inr (Py.getitem (VDict env) _))
      by (unfold Py.getitem; rewrite H; reflexivity).
    erewrite (bind_lift_inr (Py.getitem (VDict [_]) _)) by reflexivity.
    erewrite !bind_lift_inr by reflexivity. reflexivity. }
  rewrite bind_then_ret.
  erewrite bind_lift_inr
    by (unfold Py.get; rewrite (find_present _ _ _ _ H); reflexivity).
  cbn [Py.truthy]. rewrite Hm. reflexivity.
Qed.



(** X5: [crawl_agent] shows the first returned record only: two answers
    whose lists of results start with the same record give the same output,
    whatever follows in the lists and whatever else the answers hold. *)
Theorem crawl_agent_shows_first_record_only {World : Type}
  (remote remote' : TavilyClient -> request -> World -> (exn + pyval) * World)
  (self : TavilyAgents) (url : pystr) (depth : Z) (w w1 : World)
  (env env' : list (pystr * pyval)) (first : pyval) (rest rest' : list pyval) :
  remote (client self) (Extract [url] (Some true)) w = (inr (VDict env), w1) ->
  remote' (client self) (Extract [url] (Some true)) w
  = (inr (VDict env'), w1) ->
  Py.lookup (py "results") env = Some (VList (first :: rest)) ->
  Py.lookup (py "results") env' = Some (VList (first :: rest')) ->
  trace (crawl_agent remote self url depth w)
  = trace (crawl_agent remote' self url depth w).
Proof.
  intros Hr Hr' H H'. unfold crawl_agent. rewrite !bind_print.
  erewrite (guarded_answered remote) by (eauto with local).
  erewrite (guarded_answered remote') by (eauto with local).
  rewrite (crawl_display_first w1 env first rest H).
  rewrite (crawl_display_first w1 env' first rest' H').
  cbv zeta. cbn [value trace].
  destruct (value (crawl_main_page _ w1)); reflexivity.
Qed.

Lemma crawl_agent_shows_first_record_only_witness :
  trace (crawl_agent
           (Examples.answering
              (VDict [(py "results",
                       VList [VDict Examples.no_content;
                              VDict Examples.both_contents])]))
           Examples.agents (py "https://a") 2 tt)
  = trace (crawl_agent
             (Examples.answering
                (VDict [(py "results", VList [VDict Examples.no_content])]))
             Examples.agents (py "https://a") 2 tt).
Proof.
  apply (crawl_agent_shows_first_record_only _ _ Examples.agents
           (py "https://a") 2%Z tt tt
           [(py "results",
             VList [VDict Examples.no_content; VDict Examples.both_contents])]
           [(py "results", VList [VDict Examples.no_content])]
           (VDict Examples.no_content)
           [VDict Examples.both_contents] []); reflexivity.
Defined.



(** ** Numbering of the records *)

Lemma bind_value_inl {World A B : Type} (m : M World A) (k : A -> M World B)
  (w : World) (e : exn) :
  value (m w) = inl e -> value (bind m k w) = inl e.
Proof. intros H. unfold bind. rewrite H. reflexivity. Qed.

Section Numbering.

Context {World : Type}.

(** Closes [result_numbers (trace (m w)) = []] for formatting code [m]. *)
Ltac no_number w :=
  match goal with
  | |- context [result_numbers (trace (?m w))] =>
      replace (result_numbers (trace (m w))) with (@nil nat);
      [|symmetry; apply flat_map_nil; revert w;
        change (emits (fun ev => match ev with
                                 | Out (OResultNo i) | Out (OExtractionNo i)
                                   => [i]
                                 | _ => [] end = []) m);
        prove_emits; reflexivity]
  end.

(** Each record prints its number once, before anything can fail. *)
Lemma search_result_numbers i x (w : World) :
  result_numbers (trace (search_result i x w)) = [i].
Proof.
  unfold search_result. rewrite !bind_print. cbn [trace prepend].
  rewrite !result_numbers_app. no_number w. reflexivity.
Qed.

Lemma extract_result_numbers i x (w : World) :
  result_numbers (trace (extract_result i x w)) = [i].
Proof.
  unfold extract_result. rewrite !bind_print. cbn [trace prepend].
  rewrite !result_numbers_app. no_number w. reflexivity.
Qed.

Lemma for_enumerate_numbers (body : nat -> pyval -> M World unit) :
  (forall i x w, result_numbers (trace (body i x w)) = [i]) ->
  forall items start w,
  exists k,
    (k <= List.length items)%nat /\
    result_numbers (trace (for_enumerate start items body w)) = seq start k /\
    (value (for_enumerate start items body w) = inr tt ->
     k = List.length items).
Proof.
  intros Hb. induction items as [|x items IH]; intros start w.
  - exists 0%nat. repeat split. constructor.
  - cbn [for_enumerate]. rewrite bind_trace, result_numbers_app, Hb.
    destruct (value (body start x w)) as [e|[]] eqn:E.
    + exists 1%nat. cbn [List.length]. split; [lia|]. split; [reflexivity|].
      rewrite (bind_value_inl _ _ _ _ E). discriminate.
    + destruct (IH (S start) (world (body start x w))) as (k & Hk & Hn & Hv).
      exists (S k). cbn [List.length]. split; [lia|]. split.
      * rewrite Hn. reflexivity.
      * rewrite (bind_value _ _ _ _ E). intros H. rewrite (Hv H).
        reflexivity.
Qed.

Lemma search_display_numbers response (w : World) :
  exists k,
    result_numbers (trace (search_display response w)) = seq 1 k /\
    forall env items v,
      response = VDict env ->
      Py.lookup (py "results") env = Some (VList items) ->
      value (search_display response w) = inr v ->
      k = List.length items.
Proof.
  unfold search_display.
  destruct (Py.get response (py "results") (VList [])) as [e|results] eqn:Hg.
  { erewrite bind_lift_inl by reflexivity. exists 0%nat.
    split; [reflexivity|discriminate]. }
  erewrite bind_lift_inr by reflexivity.
  destruct (Py.len results) as [e|found] eqn:Hl.
  { erewrite bind_lift_inl by reflexivity. exists 0%nat.
    split; [reflexivity|discriminate]. }
  erewrite bind_lift_inr by reflexivity. rewrite bind_print.
  destruct (Py.iter results) as [e|its] eqn:Hi.
  { erewrite bind_lift_inl by reflexivity. exists 0%nat.
    split; [reflexivity|discriminate]. }
  erewrite bind_lift_inr by reflexivity. rewrite bind_then_ret.
  destruct (for_enumerate_numbers search_result search_result_numbers
              its 1%nat w) as (k & _ & Hn & Hv).
  exists k. cbn [trace prepend value]. split.
  - rewrite result_numbers_app, Hn. reflexivity.
  - intros env items v -> Hres.
    unfold Py.get in Hg. rewrite (find_present _ _ _ _ Hres) in Hg.
    injection Hg as <-. injection Hi as <-.
    destruct (value (for_enumerate 1 items search_result w)) as [e|[]];
      [discriminate|]. intros _. apply Hv. reflexivity.
Qed.

Lemma extract_display_numbers response (w : World) :
  exists k,
    result_numbers (trace (extract_display response w)) = seq 1 k /\
    forall env items v,
      response = VDict env ->
      Py.lookup (py "results") env = Some (VList items) ->
      value (extract_display response w) = inr v ->
      k = List.length items.
Proof.
  unfold extract_display.
  destruct (Py.get response (py "results") (VList [])) as [e|results] eqn:Hg.
  { erewrite bind_lift_inl by reflexivity. exists 0%nat.
    split; [reflexivity|discriminate]. }
  erewrite bind_lift_inr by reflexivity.
  destruct (Py.iter results) as [e|its] eqn:Hi.
  { erewrite bind_lift_inl by reflexivity. exists 0%nat.
    split; [reflexivity|discriminate]. }
  erewrite bind_lift_inr by reflexivity. rewrite bind_then_ret.
  destruct (for_enumerate_numbers extract_result extract_result_numbers
              its 1%nat w) as (k & _ & Hn & Hv).
  exists k. cbn [trace prepend value]. split; [exact Hn|].
  intros env items v -> Hres.
  unfold Py.get in Hg. rewrite (find_present _ _ _ _ Hres) in Hg.
  injection Hg as <-. injection Hi as <-.
  destruct (value (for_enumerate 1 items extract_result w)) as [e|[]];
    [discriminate|]. intros _. apply Hv. reflexivity.
Qed.

End Numbering.

(** X7: the records that [search_agent] and [extract_agent] start to
    display are numbered 1, 2, ..., k in this order; when the agent returns
    the answer (no failure), k is the number of records in its results. *)
Theorem records_are_numbered_from_1 {World : Type}
  (remote : TavilyClient -> request -> World -> (exn + pyval) * World)
  (self : TavilyAgents) (w : World) :
  (forall query n,
      let r := search_agent remote self query n w in
      exists k,
        result_numbers (trace r) = seq 1 k /\
        forall env items,
          value r = inr (VDict env) ->
          Py.lookup (py "results") env = Some (VList items) ->
          k = List.length items) /\
  (forall urls,
      let r := extract_agent remote self urls w in
      exists k,
        result_numbers (trace r) = seq 1 k /\
        forall env items,
          value r = inr (VDict env) ->
          Py.lookup (py "results") env = Some (VList items) ->
          k = List.length items).
Proof.
  split.
  - intros query n r. subst r. unfold search_agent. rewrite bind_print.
    cbn [trace value prepend].
    destruct (remote (client self) (Search query n (py "advanced") true) w)
      as [[e|response] w'] eqn:Hr.
    + exists 0%nat. destruct (isinstance_Exception e) eqn:He.
      * erewrite guarded_caught by eassumption.
        split; [reflexivity|discriminate].
      * erewrite guarded_escapes by eassumption.
        split; [reflexivity|discriminate].
    + erewrite guarded_answered by (eauto with local).
      destruct (search_display_numbers response w') as (k & Hn & Hk).
      exists k.
      destruct (value (search_display response w')) as [e|v] eqn:E;
        cbn [trace value].
      * split; [|discriminate].
        change (Remote ?q :: ?t) with ([Remote q] ++ t).
        rewrite !result_numbers_app, Hn.
        cbn [result_numbers flat_map app]. rewrite ?app_nil_r. reflexivity.
      * split.
        -- change (Remote ?q :: ?t) with ([Remote q] ++ t).
           rewrite !result_numbers_app, Hn. reflexivity.
        -- intros env items [= ->] Hres.
           destruct (search_display_value _ _ _ E) as [<- _].
           eapply Hk; eauto.
  - intros urls r. subst r. unfold extract_agent. rewrite bind_print.
    cbn [trace value prepend].
    destruct (remote (client self) (Extract (normalize_urls urls) None) w)
      as [[e|response] w'] eqn:Hr.
    + exists 0%nat. destruct (isinstance_Exception e) eqn:He.
      * erewrite guarded_caught by eassumption.
        split; [reflexivity|discriminate].
      * erewrite guarded_escapes by eassumption.
        split; [reflexivity|discriminate].
    + erewrite guarded_answered by (eauto with local).
      destruct (extract_display_numbers response w') as (k & Hn & Hk).
      exists k.
      destruct (value (extract_display response w')) as [e|v] eqn:E;
        cbn [trace value].
      * split; [|discriminate].
        change (Remote ?q :: ?t) with ([Remote q] ++ t).
        rewrite !result_numbers_app, Hn.
        cbn [result_numbers flat_map app]. rewrite ?app_nil_r. reflexivity.
      * split.
        -- change (Remote ?q :: ?t) with ([Remote q] ++ t).
           rewrite !result_numbers_app, Hn. reflexivity.
        -- intros env items [= ->] Hres.
           destruct (extract_display_value _ _ _ E) as [<- _].
           eapply Hk; eauto.
Qed.

Lemma records_are_numbered_from_1_witness :
  result_numbers
    (trace (search_agent
              (Examples.answering
                 (VDict [(py "results",
                          VList [VDict Examples.both_contents;
                                 VDict Examples.empty_raw])]))
              Examples.agents (py "q") 5 tt))
  = [1; 2]%nat.
Proof.
  destruct (records_are_numbered_from_1
              (Examples.answering
                 (VDict [(py "results",
                          VList [VDict Examples.both_contents;
                                 VDict Examples.empty_raw])]))
              Examples.agents tt) as (Hs & _).
  destruct (Hs (py "q") 5%Z) as (k & Hn & Hk).
  rewrite Hn, (Hk _ _ eq_refl eq_refl). reflexivity.
Defined.

(** ** What is sent and what is ignored by the menu loop *)

(** X8: every URL that the menu passes to [extract_agent], and so every URL
    of the remote request, is free of commas and neither starts nor ends
    with whitespace. *)
Theorem shell_urls_are_clean {World : Type}
  (remote : TavilyClient -> request -> World -> (exn + pyval) * World)
  (agents : TavilyAgents) (line : pystr) (w : World) :
  Forall (fun r =>
            exists urls,
              r = Extract urls None /\
              Forall (fun u =>
                        ~ In comma u /\
                        (forall c t, u = c :: t -> isspace c = false) /\
                        (forall c t, u = t ++ [c] -> isspace c = false))
                     urls)
         (requests (trace (step remote agents AtUrls line w))).
Proof.
  rewrite step_requests. destruct (nonempty (strip line)); constructor;
    [|constructor].
  eexists. split; [reflexivity|].
  apply Forall_forall. intros u Hu. apply in_map_iff in Hu.
  destruct Hu as (piece & <- & Hp). repeat split.
  - intros Hc. apply strip_incl in Hc. revert Hc.
    apply (split_no_sep comma (strip line)). exact Hp.
  - apply strip_head.
  - apply strip_last.
Qed.

(** X9: whitespace around a typed line never matters: the loop behaves on
    the trimmed lines exactly as on the lines themselves. *)
Theorem shell_ignores_surrounding_whitespace {World : Type}
  (remote : TavilyClient -> request -> World -> (exn + pyval) * World)
  (agents : TavilyAgents) (inputs : list stdin) (w : World) :
  main_loop remote agents
    (List.map (fun i => match i with
                        | Line line => Line (strip line)
                        | EOF => EOF
                        end) inputs) w
  = main_loop remote agents inputs w.
Proof.
  unfold main_loop. apply bind_ext. intros _ w'. generalize (Waiting AtChoice).
  revert w'. induction inputs as [|[line|] rest IH]; intros w' s;
    [reflexivity| |destruct s; reflexivity].
  cbn [List.map]. destruct s as [p|]; [|reflexivity].
  rewrite !run_Line.
  replace (step remote agents p (strip line)) with (step remote agents p line)
    by (unfold step; rewrite strip_idempotent; reflexivity).
  apply bind_ext. intros s' w''. apply IH.
Qed.

(** X10: a blank line at the query or URL prompts, and a menu choice that is
    none of "1" to "4", make no remote request: the loop prints its message,
    waits for the acknowledgment line and shows the menu again, whatever the
    remote service is. *)
Theorem blank_or_invalid_input_makes_no_request {World : Type}
  (remote : TavilyClient -> request -> World -> (exn + pyval) * World)
  (agents : TavilyAgents) (w : World) :
  (forall choice blank ack,
      strip choice = py "1" \/ strip choice = py "2" \/
      strip choice = py "3" ->
      strip blank = [] ->
      main_loop remote agents [Line choice; Line blank; Line ack] w
      = Result [Out OMenu;
                Out (if PyStr.eqb (strip choice) (py "1")
                     then OEmptyQuery else OEmptyUrl);
                Out OMenu] w (inr (Waiting AtChoice))) /\
  (forall choice ack,
      strip choice <> py "1" -> strip choice <> py "2" ->
      strip choice <> py "3" -> strip choice <> py "4" ->
      main_loop remote agents [Line choice; Line ack] w
      = Result [Out OMenu; Out OInvalidChoice; Out OMenu] w
          (inr (Waiting AtChoice))).
Proof.
  split.
  - intros choice blank ack Hc Hb. unfold main_loop.
    rewrite bind_print, !run_Line.
    assert (Hn : nonempty (strip blank) = false) by (rewrite Hb; reflexivity).
    destruct Hc as [Hc|[Hc|Hc]]; rewrite Hc.
    + erewrite bind_returns
        by (rewrite step_AtChoice; cbv zeta; rewrite Hc; reflexivity).
      rewrite run_Line.
      erewrite bind_returns by (apply step_empty_line; auto).
      reflexivity.
    + erewrite bind_returns
        by (rewrite step_AtChoice; cbv zeta; rewrite Hc; reflexivity).
      rewrite run_Line.
      erewrite bind_returns by (apply step_empty_line; auto).
      reflexivity.
    + erewrite bind_returns
        by (rewrite step_AtChoice; cbv zeta; rewrite Hc; reflexivity).
      rewrite run_Line.
      erewrite bind_returns by (apply step_empty_line; auto).
      reflexivity.
  - intros choice ack H1 H2 H3 H4. unfold main_loop.
    rewrite bind_print, !run_Line.
    apply eqb_neq in H1, H2, H3, H4.
    erewrite bind_returns
      by (rewrite step_AtChoice; cbv zeta;
          rewrite H1, H2, H3, H4; reflexivity).
    reflexivity.
Qed.

Lemma blank_or_invalid_input_makes_no_request_witness :
  main_loop (Examples.failing KeyboardInterrupt) Examples.agents
    [Line (py "2"); Line (py "   "); Line (py "")] tt
  = Result [Out OMenu; Out OEmptyUrl; Out OMenu] tt (inr (Waiting AtChoice)) /\
  main_loop (Examples.failing KeyboardInterrupt) Examples.agents
    [Line (py "9"); Line (py "")] tt
  = Result [Out OMenu; Out OInvalidChoice; Out OMenu] tt
      (inr (Waiting AtChoice)).
Proof.
  destruct (blank_or_invalid_input_makes_no_request
              (Examples.failing KeyboardInterrupt) Examples.agents tt)
    as (Hblank & Hinvalid).
  split.
  - apply (Hblank (py "2") (py "   ") (py "")); [right; left|]; reflexivity.
  - apply (Hinvalid (py "9") (py "")); discriminate.
Defined.

(** X13: a remote request costs two typed lines, the menu choice and its
    query or URL line: the loop makes at most half as many requests as it
    was given lines. *)
Theorem two_lines_per_request {World : Type}
  (remote : TavilyClient -> request -> World -> (exn + pyval) * World)
  (agents : TavilyAgents) (inputs : list stdin) (w : World) :
  (2 * List.length (requests (trace (main_loop remote agents inputs w)))
   <= List.length inputs)%nat.
Proof.
  rewrite main_loop_trace. cbn [requests flat_map app].
  pose proof (run_requests_bound remote agents inputs (Waiting AtChoice) w).
  unfold requests in *. lia.
Qed.

(** X18: from the menu, a choice "1" and a non-blank query make exactly
    one remote request, a search for the trimmed query with
    [max_results] 5, depth "advanced" and raw content; a choice "3" and a
    non-blank URL make exactly one, extract on the trimmed URL alone with
    raw content requested. *)
Theorem menu_requests {World : Type}
  (remote : TavilyClient -> request -> World -> (exn + pyval) * World)
  (agents : TavilyAgents) (choice line : pystr) (w : World) :
  strip line <> [] ->
  (strip choice = py "1" ->
   requests (trace (main_loop remote agents [Line choice; Line line] w))
   = [Search (strip line) 5 (py "advanced") true]) /\
  (strip choice = py "3" ->
   requests (trace (main_loop remote agents [Line choice; Line line] w))
   = [Extract [strip line] (Some true)]).
Proof.
  intros Hl. apply nonempty_true in Hl.
  split; intros Hc; rewrite main_loop_trace, run_Line;
    (erewrite bind_returns
       by (rewrite step_AtChoice; cbv zeta; rewrite Hc; reflexivity));
    rewrite prepend_nil, run_Line, bind_trace;
    change (Out OMenu :: ?t) with ([Out OMenu] ++ t);
    rewrite !requests_app, step_requests, Hl;
    destruct (value _) as [e|[p|]]; reflexivity.
Qed.

Lemma menu_requests_witness :
  requests (trace (main_loop (Examples.failing Examples.connection_error)
                     Examples.agents
                     [Line (py " 3"); Line (py " https://a ")] tt))
  = [Extract [py "https://a"] (Some true)].
Proof.
  assert (H : strip (py " https://a ") <> []) by (vm_compute; discriminate).
  destruct (menu_requests (Examples.failing Examples.connection_error)
              Examples.agents (py " 3") (py " https://a ") tt H) as (_ & H3).
  apply H3. reflexivity.
Defined.

(** ** The start of [main] *)

Import Startup.



Lemma main_with_key {World : Type}
  (remote : TavilyClient -> request -> World -> (exn + pyval) * World)
  (key dir : pystr) (file : option (list pystr * option exn))
  (inputs : list stdin) (w : World) :
  key <> [] ->
  main remote (Surroundings (Some key) dir file) inputs w
  = ([SBanner; key_loaded key],
     Looped (main_loop remote
               {| api_key := Some key;
                  client := {| client_api_key := Some key |} |}
               inputs w)).
Proof.
  intros Hk. apply nonempty_true in Hk.
  unfold main, report_key, TavilyAgents_init, Py.or_opt.
  cbn [environ_key Py.truthy_opt]. rewrite Hk. cbn [negb]. reflexivity.
Qed.



(** X17: the key is masked on the key line only.  Of a key held in the
    environment the key line shows at most the first ten characters:
    exactly ten, hiding at least one, when the key is longer than that, and
    none otherwise.  The listing of [.env] has no such masking: without a
    key in the environment, every line of [.env] that contains "TAVILY" is
    printed whole (trimmed), so a key stored there is shown in full.  The
    texts are taken to be printable. *)
Theorem key_is_masked_on_the_key_line_only {World : Type}
  (remote : TavilyClient -> request -> World -> (exn + pyval) * World)
  (env : surroundings) (inputs : list stdin) (w : World) :
  (forall key,
      environ_key env = Some key -> key <> [] ->
      Console.encodable key = true ->
      exists shown,
        fst (main remote env inputs w) = [SBanner; SKeyLoaded shown] /\
        match shown with
        | None => (List.length key <= 10)%nat
        | Some prefix =>
            List.length prefix = 10%nat /\
            exists hidden, hidden <> [] /\ key = prefix ++ hidden
        end) /\
  (forall lines failure line,
      Py.truthy_opt (environ_key env) = false ->
      dotenv env = Some (lines, failure) ->
      Console.encodable (getcwd env) = true ->
      Forall (fun l => Console.encodable l = true) lines ->
      In line lines ->
      contains (py "TAVILY") line = true ->
      In (SEnvLine (strip line)) (fst (main remote env inputs w))).
Proof.
  split.
  - intros key Hk Hne _. destruct env as [k dir file]. cbn in Hk. subst k.
    rewrite main_with_key by exact Hne. cbn [fst].
    unfold key_loaded. destruct (Nat.ltb_spec 10 (List.length key)) as [H|H].
    + eexists. split; [reflexivity|].
      split; [apply firstn_length_le; lia|].
      exists (skipn 10 key). split; [|symmetry; apply firstn_skipn].
      intros E. apply (f_equal (@List.length N)) in E.
      rewrite length_skipn in E. simpl in E. lia.
    + eexists. split; [reflexivity|exact H].
  - intros lines failure line Hk Hfile _ _ Hin Hc.
    assert (Hshown : In (SEnvLine (strip line)) (fst (report_key env))).
    { unfold report_key. rewrite Hk, Hfile. cbn [fst].
      apply in_or_app. right. unfold show_dotenv. right.
      apply in_map_iff. exists line. split; [reflexivity|].
      apply filter_In. cbn [fst]. auto. }
    unfold main. destruct (report_key env) as [shown fail].
    cbn [fst] in Hshown.
    destruct fail as [e|]; [right; exact Hshown|].
    destruct (TavilyAgents_init None (environ_key env)) as [e|agents];
      [destruct (isinstance_ValueError e)|]; cbn [fst];
      right; try exact Hshown.
    apply in_or_app. left. exact Hshown.
Qed.

Lemma key_is_masked_on_the_key_line_only_witness :
  (exists shown,
      fst (main (Examples.failing Examples.connection_error)
             (Surroundings (Some (py "tvly-0123456789abcdef")) (py "/home")
                None) [] tt)
      = [SBanner; SKeyLoaded shown] /\
      match shown with
      | None => (List.length (py "tvly-0123456789abcdef") <= 10)%nat
      | Some prefix =>
          List.length prefix = 10%nat /\
          exists hidden,
            hidden <> [] /\ py "tvly-0123456789abcdef" = prefix ++ hidden
      end) /\
  In (SEnvLine (py "TAVILY_API_KEY=tvly-0123456789abcdef"))
    (fst (main (Examples.failing Examples.connection_error)
            (Surroundings None (py "/home")
               (Some ([py "# keys";
                       py "TAVILY_API_KEY=tvly-0123456789abcdef "], None)))
            [] tt)).
Proof.
  split.
  - destruct (key_is_masked_on_the_key_line_only
                (Examples.failing Examples.connection_error)
                (Surroundings (Some (py "tvly-0123456789abcdef"))
                   (py "/home") None) [] tt) as (Hkey & _).
    assert (Hne : py "tvly-0123456789abcdef" <> []) by discriminate.
    exact (Hkey _ eq_refl Hne eq_refl).
  - destruct (key_is_masked_on_the_key_line_only
                (Examples.failing Examples.connection_error)
                (Surroundings None (py "/home")
                   (Some ([py "# keys";
                           py "TAVILY_API_KEY=tvly-0123456789abcdef "],
                          None)))
                [] tt) as (_ & Hlines).
    apply (Hlines _ None (py "TAVILY_API_KEY=tvly-0123456789abcdef ")
             eq_refl eq_refl eq_refl).
    + repeat constructor.
    + right. left. reflexivity.
    + reflexivity.
Defined.

(** * The program on the console *)

(** ** What the console refuses *)

Module ConsoleFacts.

Import Console.

(** The limit is never computed: it is compared through the laws of
    powers. *)
Lemma limit_positive : (0 < limit)%Z.
Proof. unfold limit. apply Z.pow_pos_nonneg; lia. Qed.

Lemma limit_above_1000 : (1000 < limit)%Z.
Proof.
  unfold limit. change 1000%Z with (10 ^ 3)%Z.
  apply Z.pow_lt_mono_r; lia.
Qed.

Lemma int_too_long_small (z : Z) :
  (Z.abs z < 1000)%Z -> int_too_long z = false.
Proof.
  intros H. unfold int_too_long. apply Z.leb_gt.
  pose proof limit_above_1000 as HL. revert H HL.
  generalize limit. intros L H HL. lia.
Qed.

Lemma int_too_long_limit : int_too_long limit = true.
Proof.
  unfold int_too_long. apply Z.leb_le.
  rewrite Z.abs_eq by (apply Z.lt_le_incl, limit_positive).
  apply Z.le_refl.
Qed.

Lemma long_int_in_zero : long_int_in (VNum 0) = false.
Proof.
  change (long_int_in (VNum 0)) with (int_too_long 0).
  apply int_too_long_small. reflexivity.
Qed.

Lemma str_exn_UnicodeEncodeError : str_exn UnicodeEncodeError = None.
Proof. vm_compute. reflexivity. Qed.

Lemma str_exn_digits_exceeded : str_exn digits_exceeded = None.
Proof. vm_compute. reflexivity. Qed.

(** What a refused line raises derives from [Exception] and can itself be
    reported. *)
Lemma refuses_reportable (o : output) (e : exn) :
  refuses o = Some e ->
  isinstance_Exception e = true /\ str_exn e = None.
Proof.
  assert (Hu : isinstance_Exception UnicodeEncodeError = true /\
               str_exn UnicodeEncodeError = None)
    by (split; [reflexivity | apply str_exn_UnicodeEncodeError]).
  assert (Hd : isinstance_Exception digits_exceeded = true /\
               str_exn digits_exceeded = None)
    by (split; [reflexivity | apply str_exn_digits_exceeded]).
  assert (Hv : forall v, str_value v = Some e ->
                         isinstance_Exception e = true /\ str_exn e = None).
  { intros v. unfold str_value.
    destruct v; try destruct (long_int_in _); try destruct (encodable _);
      intros [= <-]; assumption. }
  destruct o; cbn [refuses]; try discriminate; try apply Hv.
  - destruct (encodable query); intros [= <-]; assumption.
  - destruct (forallb encodable keys); intros [= <-]; assumption.
  - destruct (int_too_long max_depth); [intros [= <-]; assumption|].
    destruct (encodable url); intros [= <-]; assumption.
  - intros H. unfold str_exn in H.
    destruct e0; try discriminate H;
      try destruct (long_int_in _); try destruct (encodable _);
      try discriminate H; injection H as <-; assumption.
Qed.

(** The failures of the operations on Python values can be reported. *)
Lemma getitem_reportable v k e : Py.getitem v k = inl e -> str_exn e = None.
Proof.
  destruct v; simpl; try (intros [= <-]; reflexivity).
  destruct (Py.lookup k d); intros [= <-]; reflexivity.
Qed.

Lemma get_reportable v k d e : Py.get v k d = inl e -> str_exn e = None.
Proof. destruct v; simpl; intros [= <-]; reflexivity. Qed.

Lemma len_reportable v e : Py.len v = inl e -> str_exn e = None.
Proof. destruct v; simpl; intros [= <-]; reflexivity. Qed.

Lemma keys_reportable v e : Py.keys v = inl e -> str_exn e = None.
Proof. destruct v; simpl; intros [= <-]; reflexivity. Qed.

Lemma iter_reportable v e : Py.iter v = inl e -> str_exn e = None.
Proof. destruct v; simpl; intros [= <-]; reflexivity. Qed.

Lemma first_reportable v e : Py.first v = inl e -> str_exn e = None.
Proof.
  destruct v as [| | |[|]|[|]|]; cbn [Py.first]; intros [= <-];
    try reflexivity;
    cbn [str_exn]; rewrite long_int_in_zero; reflexivity.
Qed.

End ConsoleFacts.

(** ** Printing and tidy computations *)

Section StrictPrint.

Context {World : Type}.

Lemma bind_print_ok {B} (o : output) (k : unit -> M World B) (w : World) :
  Console.refuses o = None ->
  bind (Strict.print o) k w = prepend [Out o] (k tt w).
Proof. intros H. unfold bind, Strict.print. rewrite H. reflexivity. Qed.

Lemma bind_print_refused {B} (o : output) (e : exn) (k : unit -> M World B)
  (w : World) :
  Console.refuses o = Some e ->
  bind (Strict.print o) k w = Result [] w (inl e).
Proof. intros H. unfold bind, Strict.print. rewrite H. reflexivity. Qed.


Lemma tidy_ret {A} (a : A) : tidy (ret (World:=World) a).
Proof. intros w; simpl; repeat split; discriminate. Qed.

Lemma tidy_print (o : output) : tidy (Strict.print (World:=World) o).
Proof.
  intros w. unfold Strict.print.
  destruct (Console.refuses o) as [e|] eqn:E; cbn [world trace value].
  - split; [reflexivity|]. split; [reflexivity|].
    intros e' [= <-]. eapply ConsoleFacts.refuses_reportable. exact E.
  - repeat split; discriminate.
Qed.

Lemma tidy_lift {A} (x : exn + A) :
  (forall e, x = inl e ->
             isinstance_Exception e = true /\ Console.str_exn e = None) ->
  tidy (lift (World:=World) x).
Proof.
  intros H w; simpl. split; [reflexivity|]. split; [reflexivity|]. exact H.
Qed.

Lemma tidy_bind {A B} (m : M World A) (k : A -> M World B) :
  tidy m -> (forall a, tidy (k a)) -> tidy (bind m k).
Proof.
  intros Hm Hk w. unfold bind.
  destruct (Hm w) as (Hw & Hr & He).
  destruct (value (m w)) as [e|a] eqn:E; simpl.
  - split; [exact Hw|]. split; [exact Hr|]. intros e' [= <-]. auto.
  - destruct (Hk a (world (m w))) as (Hw' & Hr' & He').
    unfold prepend; simpl.
    rewrite requests_app, Hr, Hr', Hw'. repeat split; auto; apply He'; auto.
Qed.

Lemma tidy_if {A} (b : bool) (m1 m2 : M World A) :
  tidy m1 -> tidy m2 -> tidy (if b then m1 else m2).
Proof. destruct b; auto. Qed.

Lemma tidy_for_enumerate (body : nat -> pyval -> M World unit) items :
  (forall i x, tidy (body i x)) ->
  forall start, tidy (for_enumerate start items body).
Proof.
  intros Hb. induction items as [|x items IH]; intros start; simpl.
  - apply tidy_ret.
  - apply tidy_bind; auto.
Qed.

End StrictPrint.

Create HintDb tidy.
#[export] Hint Resolve PyFacts.getitem_error PyFacts.get_error
  PyFacts.len_error PyFacts.keys_error PyFacts.iter_error
  PyFacts.first_error ConsoleFacts.getitem_reportable
  ConsoleFacts.get_reportable ConsoleFacts.len_reportable
  ConsoleFacts.keys_reportable ConsoleFacts.iter_reportable
  ConsoleFacts.first_reportable : tidy.

(** Splits a sequence of binds into its steps and closes each of them. *)
Ltac prove_tidy :=
  repeat first
    [ apply tidy_ret
    | apply tidy_print
    | apply tidy_lift; intros; split; eauto with tidy
    | apply tidy_bind; [|intros]
    | apply tidy_if
    | apply tidy_for_enumerate; intros ].

Section StrictDisplays.

Context {World : Type}.

Lemma tidy_search_display response :
  tidy (Strict.search_display (World:=World) response).
Proof. unfold Strict.search_display, Strict.search_result. prove_tidy. Qed.

Lemma tidy_extract_display response :
  tidy (Strict.extract_display (World:=World) response).
Proof. unfold Strict.extract_display, Strict.extract_result. prove_tidy. Qed.

Lemma tidy_crawl_display response :
  tidy (Strict.crawl_display (World:=World) response).
Proof. unfold Strict.crawl_display, Strict.crawl_main_page. prove_tidy. Qed.

End StrictDisplays.

#[export] Hint Resolve tidy_search_display tidy_extract_display
  tidy_crawl_display : tidy.

(** ** A remote call under [try ... except Exception], on the console *)

Section StrictGuarded.

Context {World : Type}.
Variable remote : TavilyClient -> request -> World -> (exn + pyval) * World.

Let guarded (c : TavilyClient) (r : request) (K : pyval -> M World pyval)
    (a : agent) : M World pyval :=
  try_except (bind (call remote c r) K)
             (fun e => bind (Strict.print (OError a e)) (fun _ => ret VNone)).

(** The failure is caught and reported. *)
Lemma strict_caught c r K a w e w' :
  remote c r w = (inl e, w') ->
  isinstance_Exception e = true ->
  Console.str_exn e = None ->
  guarded c r K a w = Result [Remote r; Out (OError a e)] w' (inr VNone).
Proof.
  intros Hr He Hs. unfold guarded, try_except.
  erewrite bind_raises by (rewrite call_answer, Hr; reflexivity).
  cbn [value trace world]. rewrite He.
  rewrite bind_print_ok by exact Hs. reflexivity.
Qed.

(** The failure is caught, but its line cannot be printed: what [print]
    raises in the handler leaves the agent. *)
Lemma strict_unreported c r K a w e e' w' :
  remote c r w = (inl e, w') ->
  isinstance_Exception e = true ->
  Console.str_exn e = Some e' ->
  guarded c r K a w = Result [Remote r] w' (inl e').
Proof.
  intros Hr He Hs. unfold guarded, try_except.
  erewrite bind_raises by (rewrite call_answer, Hr; reflexivity).
  cbn [value trace world]. rewrite He.
  erewrite bind_print_refused by exact Hs. reflexivity.
Qed.

Lemma strict_escapes c r K a w e w' :
  remote c r w = (inl e, w') ->
  isinstance_Exception e = false ->
  guarded c r K a w = Result [Remote r] w' (inl e).
Proof.
  intros Hr He. unfold guarded, try_except.
  erewrite bind_raises by (rewrite call_answer, Hr; reflexivity).
  cbn [value]. rewrite He. reflexivity.
Qed.

(** When the call answers, a failure of the display, a refused line
    included, is caught and reported. *)
Lemma strict_answered c r K a w response w' :
  remote c r w = (inr response, w') ->
  (forall response, tidy (K response)) ->
  guarded c r K a w
  = match value (K response w') with
    | inr v => Result (Remote r :: trace (K response w')) w' (inr v)
    | inl e => Result (Remote r :: trace (K response w')
                         ++ [Out (OError a e)]) w' (inr VNone)
    end.
Proof.
  intros Hr HK. unfold guarded, try_except.
  erewrite bind_returns by (rewrite call_answer, Hr; reflexivity).
  cbn [fst snd]. destruct (HK response w') as (Hw & _ & He).
  destruct (K response w') as [t w1 [e|v]]; simpl in *; subst w1.
  - destruct (He e eq_refl) as [Hi Hs]. rewrite Hi.
    rewrite bind_print_ok by exact Hs. reflexivity.
  - reflexivity.
Qed.

Lemma strict_requests c r K a w :
  (forall response, tidy (K response)) ->
  requests (trace (guarded c r K a w)) = [r].
Proof.
  intros HK. destruct (remote c r w) as [[e|response] w'] eqn:Hr.
  - destruct (isinstance_Exception e) eqn:He.
    + destruct (Console.str_exn e) as [e'|] eqn:Hs.
      * erewrite strict_unreported by eassumption. reflexivity.
      * erewrite strict_caught by eassumption. reflexivity.
    + erewrite strict_escapes by eassumption. reflexivity.
  - erewrite strict_answered by eassumption.
    destruct (HK response w') as (_ & Hq & _).
    destruct (value (K response w')); cbn [trace];
      change (Remote r :: ?t) with ([Remote r] ++ t);
      rewrite ?requests_app, Hq; reflexivity.
Qed.

(** With failures that can be reported, the call under [try] returns. *)
Lemma strict_returns c r K a w :
  (forall response, tidy (K response)) ->
  (forall e w', remote c r w = (inl e, w') ->
                isinstance_Exception e = true /\ Console.str_exn e = None) ->
  exists v, value (guarded c r K a w) = inr v.
Proof.
  intros HK Hrep. destruct (remote c r w) as [[e|response] w'] eqn:Hr.
  - destruct (Hrep e w' eq_refl) as [He Hs].
    erewrite strict_caught by eassumption. eexists. reflexivity.
  - erewrite strict_answered by eassumption.
    destruct (value (K response w')); eexists; reflexivity.
Qed.

End StrictGuarded.

(** ** The three agents on the console *)

Lemma encodable_strip (s : pystr) :
  Console.encodable s = true -> Console.encodable (strip s) = true.
Proof.
  unfold Console.encodable. rewrite !forallb_forall.
  intros H c Hc. apply H, strip_incl, Hc.
Qed.

Lemma refuses_OSearching (query : pystr) :
  Console.encodable query = true ->
  Console.refuses (OSearching query) = None.
Proof. intros H. cbn [Console.refuses]. rewrite H. reflexivity. Qed.

Lemma int_too_long_long_depth :
  Console.int_too_long Unprintable.long_depth = true.
Proof. exact ConsoleFacts.int_too_long_limit. Qed.

Lemma refuses_OCrawling (url : pystr) (depth : Z) :
  Console.int_too_long depth = false ->
  Console.encodable url = true ->
  Console.refuses (OCrawling url depth) = None.
Proof. intros Hd Hu. cbn [Console.refuses]. rewrite Hd, Hu. reflexivity. Qed.

Section StrictAgents.

Context {World : Type}.
Variable remote : TavilyClient -> request -> World -> (exn + pyval) * World.

(** A header that cannot be printed ends the agent before its [try]. *)
Lemma strict_search_agent_refused self query n (w : World) e :
  Console.refuses (OSearching query) = Some e ->
  Strict.search_agent remote self query n w = Result [] w (inl e).
Proof.
  intros H. unfold Strict.search_agent.
  erewrite bind_print_refused by exact H. reflexivity.
Qed.

Lemma strict_crawl_agent_refused self url depth (w : World) e :
  Console.refuses (OCrawling url depth) = Some e ->
  Strict.crawl_agent remote self url depth w = Result [] w (inl e).
Proof.
  intros H. unfold Strict.crawl_agent.
  erewrite bind_print_refused by exact H. reflexivity.
Qed.

Lemma strict_search_agent_requests self query n (w : World) :
  Console.refuses (OSearching query) = None ->
  requests (trace (Strict.search_agent remote self query n w))
  = [Search query n (py "advanced") true].
Proof.
  intros H. unfold Strict.search_agent. rewrite bind_print_ok by exact H.
  cbn [prepend trace requests flat_map app].
  apply strict_requests. auto with tidy.
Qed.


Lemma strict_crawl_agent_requests self url depth (w : World) :
  Console.refuses (OCrawling url depth) = None ->
  requests (trace (Strict.crawl_agent remote self url depth w))
  = [Extract [url] (Some true)].
Proof.
  intros H. unfold Strict.crawl_agent. rewrite bind_print_ok by exact H.
  cbn [prepend trace requests flat_map app].
  apply strict_requests. auto with tidy.
Qed.

Hypothesis remote_reportable : reportable remote.

Lemma strict_search_agent_returns self query n (w : World) :
  Console.refuses (OSearching query) = None ->
  exists v, value (Strict.search_agent remote self query n w) = inr v.
Proof.
  intros H. unfold Strict.search_agent. rewrite bind_print_ok by exact H.
  cbn [prepend value].
  apply strict_returns; [auto with tidy|].
  intros e w'. apply remote_reportable.
Qed.

Lemma strict_extract_agent_returns self urls (w : World) :
  exists v, value (Strict.extract_agent remote self urls w) = inr v.
Proof.
  unfold Strict.extract_agent. rewrite bind_print_ok by reflexivity.
  cbn [prepend value].
  apply strict_returns; [auto with tidy|].
  intros e w'. apply remote_reportable.
Qed.

Lemma strict_crawl_agent_returns self url depth (w : World) :
  Console.refuses (OCrawling url depth) = None ->
  exists v, value (Strict.crawl_agent remote self url depth w) = inr v.
Proof.
  intros H. unfold Strict.crawl_agent. rewrite bind_print_ok by exact H.
  cbn [prepend value].
  apply strict_returns; [auto with tidy|].
  intros e w'. apply remote_reportable.
Qed.

End StrictAgents.

(** ** The menu loop on the console *)

Section StrictShell.

Context {World : Type}.
Variable remote : TavilyClient -> request -> World -> (exn + pyval) * World.
Variable agents : TavilyAgents.

Lemma strict_run_Line p line rest (w : World) :
  Strict.run remote agents (Line line :: rest) (Waiting p) w
  = bind (Strict.step remote agents p line) (Strict.run remote agents rest) w.
Proof. reflexivity. Qed.

Lemma strict_main_loop_value inputs (w : World) :
  value (Strict.main_loop remote agents inputs w)
  = value (Strict.run remote agents inputs (Waiting AtChoice) w).
Proof. reflexivity. Qed.


Lemma strict_step_AtChoice line (w : World) :
  Strict.step remote agents AtChoice line w
  = let choice := strip line in
    if PyStr.eqb choice (py "1") then Result [] w (inr (Waiting AtQuery))
    else if PyStr.eqb choice (py "2") then Result [] w (inr (Waiting AtUrls))
    else if PyStr.eqb choice (py "3")
         then Result [] w (inr (Waiting AtCrawlUrl))
    else if PyStr.eqb choice (py "4") then Result [Out OGoodbye] w (inr Exit)
    else Result [Out OInvalidChoice] w (inr (Waiting AtContinue)).
Proof.
  unfold Strict.step. cbv zeta.
  repeat (destruct (PyStr.eqb (strip line) _); [reflexivity|]).
  reflexivity.
Qed.

Lemma strict_step_AtContinue line (w : World) :
  Strict.step remote agents AtContinue line w
  = Result [Out OMenu] w (inr (Waiting AtChoice)).
Proof. reflexivity. Qed.

Lemma strict_step_AtQuery line (w : World) :
  nonempty (strip line) = true ->
  Strict.step remote agents AtQuery line w
  = let r := Strict.search_agent remote agents (strip line) 5 w in
    Result (trace r) (world r)
      (match value r with
       | inl e => inl e
       | inr _ => inr (Waiting AtContinue)
       end).
Proof.
  intros H. unfold Strict.step. cbv zeta. rewrite H. apply call_then_wait.
Qed.

Lemma strict_step_AtUrls line (w : World) :
  nonempty (strip line) = true ->
  Strict.step remote agents AtUrls line w
  = let r := Strict.extract_agent remote agents
               (UrlList (List.map strip (split comma (strip line)))) w in
    Result (trace r) (world r)
      (match value r with
       | inl e => inl e
       | inr _ => inr (Waiting AtContinue)
       end).
Proof.
  intros H. unfold Strict.step. cbv zeta. rewrite H. apply call_then_wait.
Qed.

Lemma strict_step_AtCrawlUrl line (w : World) :
  nonempty (strip line) = true ->
  Strict.step remote agents AtCrawlUrl line w
  = let r := Strict.crawl_agent remote agents (strip line) 2 w in
    Result (trace r) (world r)
      (match value r with
       | inl e => inl e
       | inr _ => inr (Waiting AtContinue)
       end).
Proof.
  intros H. unfold Strict.step. cbv zeta. rewrite H. apply call_then_wait.
Qed.

Lemma strict_step_empty_line p line (w : World) :
  p = AtQuery \/ p = AtUrls \/ p = AtCrawlUrl ->
  nonempty (strip line) = false ->
  Strict.step remote agents p line w
  = Result [Out (match p with AtQuery => OEmptyQuery | _ => OEmptyUrl end)]
      w (inr (Waiting AtContinue)).
Proof.
  intros [->|[->| ->]] H; unfold Strict.step; cbv zeta; rewrite H;
    reflexivity.
Qed.

(** [break] is reached at the menu prompt, on a line that trims to "4". *)
Lemma strict_step_Exit p line (w : World) :
  value (Strict.step remote agents p line w) = inr Exit
  <-> p = AtChoice /\ strip line = py "4".
Proof.
  split.
  - destruct p.
    + rewrite strict_step_AtChoice. cbv zeta.
      destruct (PyStr.eqb (strip line) (py "1")); [discriminate|].
      destruct (PyStr.eqb (strip line) (py "2")); [discriminate|].
      destruct (PyStr.eqb (strip line) (py "3")); [discriminate|].
      destruct (PyStr.eqb (strip line) (py "4")) eqn:E; [|discriminate].
      apply eqb_eq in E. auto.
    + destruct (nonempty (strip line)) eqn:E.
      * rewrite strict_step_AtQuery by exact E. cbv zeta. cbn [value].
        destruct (value _); discriminate.
      * rewrite strict_step_empty_line by auto. discriminate.
    + destruct (nonempty (strip line)) eqn:E.
      * rewrite strict_step_AtUrls by exact E. cbv zeta. cbn [value].
        destruct (value _); discriminate.
      * rewrite strict_step_empty_line by auto. discriminate.
    + destruct (nonempty (strip line)) eqn:E.
      * rewrite strict_step_AtCrawlUrl by exact E. cbv zeta. cbn [value].
        destruct (value _); discriminate.
      * rewrite strict_step_empty_line by auto. discriminate.
    + discriminate.
  - intros [-> H]. rewrite strict_step_AtChoice. cbv zeta. rewrite H.
    reflexivity.
Qed.

(** The loop is left through [break] only after a line that trims to "4"
    was read at the menu prompt. *)
Lemma strict_run_Exit_inv inputs s (w : World) :
  value (Strict.run remote agents inputs s w) = inr Exit ->
  s = Exit \/
  exists before line after,
    inputs = before ++ Line line :: after /\
    strip line = py "4" /\
    value (Strict.run remote agents before s w) = inr (Waiting AtChoice).
Proof.
  revert s w. induction inputs as [|[line|] rest IH]; intros [p|] w H;
    try (left; reflexivity); try discriminate.
  rewrite strict_run_Line in H.
  destruct (Strict.step remote agents p line w) as [t w1 [e|s']] eqn:E.
  - erewrite bind_raises in H by exact E. discriminate.
  - erewrite bind_returns in H by exact E. cbn [value prepend] in H.
    right. destruct (IH s' w1 H) as [->|(before & l & after & -> & Hl & Hb)].
    + assert (Hs : value (Strict.step remote agents p line w) = inr Exit)
        by (rewrite E; reflexivity).
      apply strict_step_Exit in Hs. destruct Hs as [-> Hs].
      exists [], line, rest. auto.
    + exists (Line line :: before), l, after. repeat split; auto.
      rewrite strict_run_Line. erewrite bind_returns by exact E. exact Hb.
Qed.

Hypothesis remote_reportable : reportable remote.

(** After a line that can be printed, read at an action prompt, the loop
    blocks at the acknowledgment prompt. *)
Lemma strict_step_action p line (w : World) :
  p = AtQuery \/ p = AtUrls \/ p = AtCrawlUrl ->
  Console.encodable line = true ->
  value (Strict.step remote agents p line w) = inr (Waiting AtContinue).
Proof.
  intros Hp Hl. apply encodable_strip in Hl.
  destruct (nonempty (strip line)) eqn:E.
  - destruct Hp as [->|[->| ->]].
    + rewrite strict_step_AtQuery by exact E. cbv zeta. cbn [value].
      destruct (strict_search_agent_returns remote remote_reportable agents
                  (strip line) 5 w (refuses_OSearching _ Hl)) as [v ->].
      reflexivity.
    + rewrite strict_step_AtUrls by exact E. cbv zeta. cbn [value].
      destruct (strict_extract_agent_returns remote remote_reportable agents
                  (UrlList (List.map strip (split comma (strip line)))) w)
        as [v ->]. reflexivity.
    + rewrite strict_step_AtCrawlUrl by exact E. cbv zeta. cbn [value].
      assert (Hd : Console.int_too_long 2 = false)
        by (apply ConsoleFacts.int_too_long_small; reflexivity).
      destruct (strict_crawl_agent_returns remote remote_reportable agents
                  (strip line) 2 w (refuses_OCrawling _ _ Hd Hl)) as [v ->].
      reflexivity.
  - rewrite strict_step_empty_line by assumption. reflexivity.
Qed.

Lemma strict_step_returns p line (w : World) :
  Console.encodable line = true ->
  exists s, value (Strict.step remote agents p line w) = inr s.
Proof.
  intros Hl.
  destruct p; try (eexists; apply strict_step_action; auto; fail).
  - rewrite strict_step_AtChoice. cbv zeta.
    repeat (destruct (PyStr.eqb (strip line) _); [eexists; reflexivity|]).
    eexists; reflexivity.
  - eexists; reflexivity.
Qed.

(** On lines that can be printed and none of which trims to "4" the loop
    is neither left nor aborted: it is blocked at a prompt. *)
Lemma strict_run_lines_waiting lines p (w : World) :
  Forall (fun line => Console.encodable line = true) lines ->
  Forall (fun line => strip line <> py "4") lines ->
  exists p', value (Strict.run remote agents (List.map Line lines)
                      (Waiting p) w)
             = inr (Waiting p').
Proof.
  intros He H. revert p w.
  induction H as [|line lines Hl _ IH]; intros p w.
  - exists p. reflexivity.
  - apply Forall_cons_iff in He. destruct He as [He1 He].
    cbn [List.map]. rewrite strict_run_Line.
    destruct (Strict.step remote agents p line w) as [t w1 [e|s]] eqn:E.
    + destruct (strict_step_returns p line w He1) as [s Hs].
      rewrite E in Hs. discriminate.
    + erewrite bind_returns by exact E. cbn [value prepend].
      destruct s as [p'|]; [apply IH; exact He|].
      assert (Hs : value (Strict.step remote agents p line w) = inr Exit)
        by (rewrite E; reflexivity).
      apply strict_step_Exit in Hs. destruct Hs as [_ Hs]. contradiction.
Qed.

End StrictShell.

Lemma failing_reportable (e : exn) :
  isinstance_Exception e = true -> Console.str_exn e = None ->
  reportable (Examples.failing e).
Proof. intros He Hs c r w e' w' [= <- _]. auto. Qed.

(** ** Formatting one record on the console *)


Section StrictRecords.

Context {World : Type}.







End StrictRecords.

(** ** Reading on after some lines *)

Section StrictShellMore.

Context {World : Type}.
Variable remote : TavilyClient -> request -> World -> (exn + pyval) * World.
Variable agents : TavilyAgents.

Lemma strict_run_Exit inputs (w : World) :
  Strict.run remote agents inputs Exit w = Result [] w (inr Exit).
Proof. destruct inputs; reflexivity. Qed.

Lemma strict_run_app a b s (w : World) :
  Strict.run remote agents (a ++ b) s w
  = bind (Strict.run remote agents a s) (Strict.run remote agents b) w.
Proof.
  revert s w. induction a as [|x a IH]; intros s w.
  - replace (Strict.run remote agents [] s) with (@ret World shell s)
      by (destruct s; reflexivity).
    rewrite bind_ret. reflexivity.
  - cbn [app]. destruct s as [p|].
    + destruct x as [line|]; [|reflexivity].
      rewrite strict_run_Line.
      change (Strict.run remote agents (Line line :: a) (Waiting p))
        with (bind (Strict.step remote agents p line)
                (Strict.run remote agents a)).
      rewrite bind_assoc. apply bind_ext. intros s' w'. apply IH.
    + rewrite strict_run_Exit.
      change (Strict.run remote agents (x :: a) Exit)
        with (@ret World shell Exit).
      rewrite bind_ret, strict_run_Exit. reflexivity.
Qed.

End StrictShellMore.

(** ** The two consoles *)

(** On a run all of whose lines the console accepts, the program on the
    console is the program above: what was proved of a run with printable
    output holds of both. *)

Section Agree.

Context {World : Type}.

Lemma agree_refl {A} (m : M World A) : agree m m.
Proof. intros w _. reflexivity. Qed.

Lemma agree_print (o : output) :
  agree (print (World:=World) o) (Strict.print o).
Proof.
  intros w H. unfold Console.accepted in H. cbn [print trace] in H.
  apply Forall_inv in H. unfold Strict.print. rewrite H. reflexivity.
Qed.

Lemma agree_bind {A B} (m m' : M World A) (k k' : A -> M World B) :
  agree m m' -> (forall a, agree (k a) (k' a)) ->
  agree (bind m k) (bind m' k').
Proof.
  intros Hm Hk w H. unfold Console.accepted in H. rewrite bind_trace in H.
  apply Forall_app in H. destruct H as [H1 H2].
  unfold bind. rewrite (Hm w H1).
  destruct (value (m w)) as [e|a]; [reflexivity|].
  rewrite (Hk a _ H2). reflexivity.
Qed.

Lemma agree_try_except {A} (body body' : M World A)
  (handler handler' : exn -> M World A) :
  agree body body' -> (forall e, agree (handler e) (handler' e)) ->
  agree (try_except body handler) (try_except body' handler').
Proof.
  intros Hb Hh w H. unfold Console.accepted in H.
  assert (H1 : Console.accepted (trace (body w))).
  { unfold try_except in H. destruct (value (body w)) as [e|a]; [|exact H].
    destruct (isinstance_Exception e); [|exact H].
    cbn [prepend trace] in H. apply Forall_app in H. apply H. }
  unfold try_except in *. rewrite (Hb w H1).
  destruct (value (body w)) as [e|a]; [|reflexivity].
  destruct (isinstance_Exception e); [|reflexivity].
  cbn [prepend trace] in H. apply Forall_app in H. destruct H as [_ H2].
  rewrite (Hh e _ H2). reflexivity.
Qed.

Lemma agree_if {A} (b : bool) (m1 m1' m2 m2' : M World A) :
  agree m1 m1' -> agree m2 m2' ->
  agree (if b then m1 else m2) (if b then m1' else m2').
Proof. destruct b; auto. Qed.

Lemma agree_for_enumerate (body body' : nat -> pyval -> M World unit) items :
  (forall i x, agree (body i x) (body' i x)) ->
  forall start,
    agree (for_enumerate start items body) (for_enumerate start items body').
Proof.
  intros Hb. induction items as [|x items IH]; intros start; simpl.
  - apply agree_refl.
  - apply agree_bind; auto.
Qed.

End Agree.

(** Splits both programs into their steps, which agree one by one. *)
Ltac prove_agree :=
  repeat first
    [ apply agree_print
    | apply agree_bind; [|intros]
    | apply agree_try_except; [|intros]
    | apply agree_if
    | apply agree_for_enumerate; intros
    | apply agree_refl ].

Section AgreeProgram.

Context {World : Type}.
Variable remote : TavilyClient -> request -> World -> (exn + pyval) * World.

Lemma agree_search_agent self query n :
  agree (search_agent remote self query n)
        (Strict.search_agent remote self query n).
Proof.
  unfold search_agent, Strict.search_agent, search_display,
    Strict.search_display, search_result, Strict.search_result.
  prove_agree.
Qed.

Lemma agree_extract_agent self urls :
  agree (extract_agent remote self urls)
        (Strict.extract_agent remote self urls).
Proof.
  unfold extract_agent, Strict.extract_agent, extract_display,
    Strict.extract_display, extract_result, Strict.extract_result.
  prove_agree.
Qed.

Lemma agree_crawl_agent self url depth :
  agree (crawl_agent remote self url depth)
        (Strict.crawl_agent remote self url depth).
Proof.
  unfold crawl_agent, Strict.crawl_agent, crawl_display,
    Strict.crawl_display, crawl_main_page, Strict.crawl_main_page.
  prove_agree.
Qed.

Lemma agree_step agents p line :
  agree (step remote agents p line) (Strict.step remote agents p line).
Proof.
  destruct p; unfold step, Strict.step; cbv zeta.
  - prove_agree.
  - apply agree_bind; [|intros; apply agree_refl].
    apply agree_if; [|apply agree_print].
    apply agree_bind; [apply agree_search_agent|intros; apply agree_refl].
  - apply agree_bind; [|intros; apply agree_refl].
    apply agree_if; [|apply agree_print].
    apply agree_bind; [apply agree_extract_agent|intros; apply agree_refl].
  - apply agree_bind; [|intros; apply agree_refl].
    apply agree_if; [|apply agree_print].
    apply agree_bind; [apply agree_crawl_agent|intros; apply agree_refl].
  - prove_agree.
Qed.

Lemma agree_run agents inputs s :
  agree (run remote agents inputs s) (Strict.run remote agents inputs s).
Proof.
  revert s. induction inputs as [|[line|] rest IH]; intros [p|];
    try apply agree_refl.
  cbn [run Strict.run]. apply agree_bind; [apply agree_step|exact IH].
Qed.

Lemma agree_main_loop agents inputs :
  agree (main_loop remote agents inputs)
        (Strict.main_loop remote agents inputs).
Proof.
  unfold main_loop, Strict.main_loop.
  apply agree_bind; [apply agree_print|intros; apply agree_run].
Qed.

End AgreeProgram.

(** ** The error policy of the agents, on the console *)

(** The failure line itself may be what cannot be printed: the handler's
    [print] then raises, outside any [try], and the agent raises instead of
    returning [None]. *)
Lemma garbled_error_leaves_agents :
  isinstance_Exception Unprintable.garbled_error = true /\
  Strict.search_agent (Examples.failing Unprintable.garbled_error)
    Examples.agents (py "q") 5 tt
  = Result [Out (OSearching (py "q"));
            Remote (Search (py "q") 5 (py "advanced") true)]
      tt (inl Console.UnicodeEncodeError) /\
  Strict.extract_agent (Examples.failing Unprintable.garbled_error)
    Examples.agents (UrlStr (py "https://a")) tt
  = Result [Out (OExtracting 1); Remote (Extract [py "https://a"] None)]
      tt (inl Console.UnicodeEncodeError).
Proof. repeat apply conj; vm_compute; reflexivity. Qed.

(** C1, amended: for each of the three agents and every exception [e]
    deriving from [Exception] that the remote call raises, when the header
    line and the failure message can be printed, the agent prints its
    header, makes the call, prints the failure message built from [e] and
    returns [None]; nothing is raised to the caller.  When the failure
    message cannot be printed, the handler's [print] raises and that
    exception leaves the agent; an exception that does not derive from
    [Exception] is not caught and leaves the agent as it is. *)
Theorem agents_catch_Exception {World : Type}
  (remote : TavilyClient -> request -> World -> (exn + pyval) * World)
  (self : TavilyAgents) (w w' : World) (e : exn) :
  (isinstance_Exception e = true -> Console.str_exn e = None ->
   (forall query n,
       Console.encodable query = true ->
       remote (client self) (Search query n (py "advanced") true) w
       = (inl e, w') ->
       Strict.search_agent remote self query n w
       = Result [Out (OSearching query);
                 Remote (Search query n (py "advanced") true);
                 Out (OError SearchAgent e)] w' (inr VNone)) /\
   (forall urls,
       remote (client self) (Extract (normalize_urls urls) None) w
       = (inl e, w') ->
       Strict.extract_agent remote self urls w
       = Result [Out (OExtracting (List.length (normalize_urls urls)));
                 Remote (Extract (normalize_urls urls) None);
                 Out (OError ExtractAgent e)] w' (inr VNone)) /\
   (forall url depth,
       Console.int_too_long depth = false ->
       Console.encodable url = true ->
       remote (client self) (Extract [url] (Some true)) w = (inl e, w') ->
       Strict.crawl_agent remote self url depth w
       = Result [Out (OCrawling url depth);
                 Remote (Extract [url] (Some true));
                 Out (OError CrawlAgent e)] w' (inr VNone))) /\
  (forall raised,
      (isinstance_Exception e = true /\ Console.str_exn e = Some raised) \/
      (isinstance_Exception e = false /\ raised = e) ->
      (forall query n,
          Console.encodable query = true ->
          remote (client self) (Search query n (py "advanced") true) w
          = (inl e, w') ->
          Strict.search_agent remote self query n w
          = Result [Out (OSearching query);
                    Remote (Search query n (py "advanced") true)]
              w' (inl raised)) /\
      (forall urls,
          remote (client self) (Extract (normalize_urls urls) None) w
          = (inl e, w') ->
          Strict.extract_agent remote self urls w
          = Result [Out (OExtracting (List.length (normalize_urls urls)));
                    Remote (Extract (normalize_urls urls) None)]
              w' (inl raised)) /\
      (forall url depth,
          Console.int_too_long depth = false ->
          Console.encodable url = true ->
          remote (client self) (Extract [url] (Some true)) w = (inl e, w') ->
          Strict.crawl_agent remote self url depth w
          = Result [Out (OCrawling url depth);
                    Remote (Extract [url] (Some true))]
              w' (inl raised))).
Proof.
  split.
  - intros He Hs. repeat split; intros.
    + unfold Strict.search_agent.
      rewrite bind_print_ok by (apply refuses_OSearching; assumption).
      erewrite strict_caught by eassumption. reflexivity.
    + unfold Strict.extract_agent. rewrite bind_print_ok by reflexivity.
      erewrite strict_caught by eassumption. reflexivity.
    + unfold Strict.crawl_agent.
      rewrite bind_print_ok by (apply refuses_OCrawling; assumption).
      erewrite strict_caught by eassumption. reflexivity.
  - intros raised [[He Hs]|[He ->]]; repeat split; intros.
    + unfold Strict.search_agent.
      rewrite bind_print_ok by (apply refuses_OSearching; assumption).
      erewrite strict_unreported by eassumption. reflexivity.
    + unfold Strict.extract_agent. rewrite bind_print_ok by reflexivity.
      erewrite strict_unreported by eassumption. reflexivity.
    + unfold Strict.crawl_agent.
      rewrite bind_print_ok by (apply refuses_OCrawling; assumption).
      erewrite strict_unreported by eassumption. reflexivity.
    + unfold Strict.search_agent.
      rewrite bind_print_ok by (apply refuses_OSearching; assumption).
      erewrite strict_escapes by eassumption. reflexivity.
    + unfold Strict.extract_agent. rewrite bind_print_ok by reflexivity.
      erewrite strict_escapes by eassumption. reflexivity.
    + unfold Strict.crawl_agent.
      rewrite bind_print_ok by (apply refuses_OCrawling; assumption).
      erewrite strict_escapes by eassumption. reflexivity.
Qed.

Lemma agents_catch_Exception_witness :
  (isinstance_Exception Examples.connection_error = true /\
   Console.str_exn Examples.connection_error = None /\
   Console.encodable (py "rocq") = true /\
   Strict.search_agent (Examples.failing Examples.connection_error)
     Examples.agents (py "rocq") 5 tt
   = Result [Out (OSearching (py "rocq"));
             Remote (Search (py "rocq") 5 (py "advanced") true);
             Out (OError SearchAgent Examples.connection_error)]
       tt (inr VNone)) /\
  (Console.str_exn Unprintable.garbled_error
   = Some Console.UnicodeEncodeError /\
   Strict.extract_agent (Examples.failing Unprintable.garbled_error)
     Examples.agents (UrlStr (py "https://a")) tt
   = Result [Out (OExtracting 1); Remote (Extract [py "https://a"] None)]
       tt (inl Console.UnicodeEncodeError)).
Proof.
  split.
  - split; [reflexivity|]. split; [reflexivity|]. split; [reflexivity|].
    destruct (agents_catch_Exception
                (Examples.failing Examples.connection_error) Examples.agents
                tt tt Examples.connection_error) as (Hcaught & _).
    destruct (Hcaught eq_refl eq_refl) as (H & _ & _).
    apply H; reflexivity.
  - split; [reflexivity|].
    destruct (agents_catch_Exception
                (Examples.failing Unprintable.garbled_error) Examples.agents
                tt tt Unprintable.garbled_error) as (_ & Hraised).
    destruct (Hraised Console.UnicodeEncodeError
                (or_introl (conj eq_refl eq_refl))) as (_ & H & _).
    apply (H (UrlStr (py "https://a"))). reflexivity.
Defined.

(** ** The depth given to [crawl_agent] *)

(** C4, as stated, fails: the depth is formatted into the header line,
    which is printed before the [try]; an int of more than 4300 digits
    cannot be formatted, so with such a depth [crawl_agent] raises
    [ValueError] and makes no request, while with depth 2 it makes its
    request. *)
Lemma long_depth_makes_no_request :
  requests (trace (Strict.crawl_agent (Examples.answering (VDict []))
                     Examples.agents (py "https://a") 2 tt))
  = [Extract [py "https://a"] (Some true)] /\
  Strict.crawl_agent (Examples.answering (VDict [])) Examples.agents
    (py "https://a") Unprintable.long_depth tt
  = Result [] tt (inl Console.digits_exceeded) /\
  requests (trace (Strict.crawl_agent (Examples.answering (VDict []))
                     Examples.agents (py "https://a")
                     Unprintable.long_depth tt))
  = [].
Proof.
  assert (Hlong : Console.refuses
                    (OCrawling (py "https://a") Unprintable.long_depth)
                  = Some Console.digits_exceeded).
  { cbn [Console.refuses]. rewrite int_too_long_long_depth. reflexivity. }
  split.
  - apply strict_crawl_agent_requests, refuses_OCrawling;
      [apply ConsoleFacts.int_too_long_small|]; reflexivity.
  - rewrite (strict_crawl_agent_refused _ _ _ _ _ _ Hlong).
    split; reflexivity.
Qed.

(** C4, amended: for any two depths that can be printed (ints of at most
    4300 digits), [crawl_agent] makes the same remote request, extract on
    [[url]] with raw content requested when the url can be printed, and
    apart from the header line its output, the remote state and the returned
    value are the same.  A depth of more than 4300 digits makes the header
    raise [ValueError] before any request. *)
Theorem crawl_agent_ignores_max_depth {World : Type}
  (remote : TavilyClient -> request -> World -> (exn + pyval) * World)
  (self : TavilyAgents) (url : pystr) (w : World) :
  (forall d1 d2,
      Console.int_too_long d1 = false ->
      Console.int_too_long d2 = false ->
      let r1 := Strict.crawl_agent remote self url d1 w in
      let r2 := Strict.crawl_agent remote self url d2 w in
      (Console.encodable url = true ->
       requests (trace r1) = [Extract [url] (Some true)] /\
       requests (trace r2) = [Extract [url] (Some true)]) /\
      requests (trace r1) = requests (trace r2) /\
      tl (trace r1) = tl (trace r2) /\
      world r1 = world r2 /\
      value r1 = value r2) /\
  (forall d,
      Console.int_too_long d = true ->
      Strict.crawl_agent remote self url d w
      = Result [] w (inl Console.digits_exceeded)).
Proof.
  split.
  - intros d1 d2 H1 H2 r1 r2. subst r1 r2.
    destruct (Console.encodable url) eqn:Hu.
    + pose proof (refuses_OCrawling url d1 H1 Hu) as P1.
      pose proof (refuses_OCrawling url d2 H2 Hu) as P2.
      split.
      { intros _. split; apply strict_crawl_agent_requests; assumption. }
      rewrite !strict_crawl_agent_requests by assumption.
      split; [reflexivity|].
      unfold Strict.crawl_agent.
      rewrite (bind_print_ok _ _ _ P1), (bind_print_ok _ _ _ P2).
      repeat split; reflexivity.
    + split; [discriminate|].
      rewrite !(strict_crawl_agent_refused remote self url _ w
                  Console.UnicodeEncodeError)
        by (cbn [Console.refuses]; rewrite ?H1, ?H2, Hu; reflexivity).
      repeat split; reflexivity.
  - intros d Hd. apply strict_crawl_agent_refused.
    cbn [Console.refuses]. rewrite Hd. reflexivity.
Qed.

Lemma crawl_agent_ignores_max_depth_witness :
  Console.int_too_long 2 = false /\
  Console.int_too_long 7 = false /\
  Console.int_too_long Unprintable.long_depth = true /\
  requests (trace (Strict.crawl_agent
                     (Examples.failing Examples.connection_error)
                     Examples.agents (py "https://a") 7 tt))
  = [Extract [py "https://a"] (Some true)] /\
  value (Strict.crawl_agent (Examples.failing Examples.connection_error)
           Examples.agents (py "https://a") 2 tt)
  = value (Strict.crawl_agent (Examples.failing Examples.connection_error)
             Examples.agents (py "https://a") 7 tt) /\
  Strict.crawl_agent (Examples.failing Examples.connection_error)
    Examples.agents (py "https://a") Unprintable.long_depth tt
  = Result [] tt (inl Console.digits_exceeded).
Proof.
  assert (H2 : Console.int_too_long 2 = false)
    by (apply ConsoleFacts.int_too_long_small; reflexivity).
  assert (H7 : Console.int_too_long 7 = false)
    by (apply ConsoleFacts.int_too_long_small; reflexivity).
  pose proof int_too_long_long_depth as HL.
  destruct (crawl_agent_ignores_max_depth
              (Examples.failing Examples.connection_error) Examples.agents
              (py "https://a") tt) as (Hsame & Hlong).
  destruct (Hsame 2%Z 7%Z H2 H7) as (Hreq & _ & _ & _ & Hv).
  repeat apply conj; try assumption.
  - apply Hreq. reflexivity.
  - apply Hlong. exact HL.
Defined.

(** ** The request of [search_agent] *)

(** X1: [search_agent] does not validate its query, an empty one included:
    whenever the header line can be printed (the query holds no lone
    surrogate) it makes exactly one remote request, [search] with that
    query, the given [max_results], depth "advanced" and raw content
    requested, and the state of the remote service afterwards is the one
    that call left, whatever the display does.  A query that cannot be
    printed makes the header raise before any request. *)
Theorem search_agent_single_request {World : Type}
  (remote : TavilyClient -> request -> World -> (exn + pyval) * World)
  (self : TavilyAgents) (query : pystr) (n : Z) (w : World) :
  (Console.encodable query = true ->
   requests (trace (Strict.search_agent remote self query n w))
   = [Search query n (py "advanced") true] /\
   world (Strict.search_agent remote self query n w)
   = snd (remote (client self) (Search query n (py "advanced") true) w)) /\
  (Console.encodable query = false ->
   Strict.search_agent remote self query n w
   = Result [] w (inl Console.UnicodeEncodeError)).
Proof.
  split.
  - intros Hq. apply refuses_OSearching in Hq.
    split; [apply strict_search_agent_requests; exact Hq|].
    unfold Strict.search_agent. rewrite bind_print_ok by exact Hq.
    cbn [world prepend].
    destruct (remote (client self) (Search query n (py "advanced") true) w)
      as [[e|response] w'] eqn:Hr.
    + destruct (isinstance_Exception e) eqn:He.
      * destruct (Console.str_exn e) as [e'|] eqn:Hs.
        -- erewrite strict_unreported by eassumption. reflexivity.
        -- erewrite strict_caught by eassumption. reflexivity.
      * erewrite strict_escapes by eassumption. reflexivity.
    + erewrite strict_answered by (eauto with tidy).
      destruct (value _); reflexivity.
  - intros Hq. apply strict_search_agent_refused.
    cbn [Console.refuses]. rewrite Hq. reflexivity.
Qed.

Lemma search_agent_single_request_witness :
  Console.encodable [] = true /\
  requests (trace (Strict.search_agent (Examples.failing KeyboardInterrupt)
                     Examples.agents [] 5 tt))
  = [Search [] 5 (py "advanced") true] /\
  Console.encodable Unprintable.lone_surrogate = false /\
  Strict.search_agent (Examples.failing KeyboardInterrupt) Examples.agents
    Unprintable.lone_surrogate 5 tt
  = Result [] tt (inl Console.UnicodeEncodeError).
Proof.
  split; [reflexivity|]. split.
  - apply (search_agent_single_request (Examples.failing KeyboardInterrupt)
             Examples.agents [] 5 tt). reflexivity.
  - split; [reflexivity|].
    apply (search_agent_single_request (Examples.failing KeyboardInterrupt)
             Examples.agents Unprintable.lone_surrogate 5 tt). reflexivity.
Defined.

(** ** What [search_agent] displays for one record, on the console *)




(** ** What [extract_agent] asks for and displays, on the console *)




(** ** The scenario of the specification, on the console *)




(** ** Leaving the menu loop, on the console *)

(** C8, amended: the loop is left through [break] only when a line
    trimming to "4" is read at the menu prompt, and after an invalid menu
    choice it blocks for one acknowledgment line and is then back at the
    menu prompt.  With a remote service that fails only with exceptions
    that derive from [Exception] and whose message can be printed, and on
    input lines (no end of file) that can be printed: lines none of which
    trims to "4" leave the loop blocked at a prompt, and after the choice
    "1", "2" or "3" and its query or URL line the loop blocks for one
    acknowledgment line and is then back at the menu prompt. *)
Theorem menu_loop_exit_only_on_4 {World : Type}
  (remote : TavilyClient -> request -> World -> (exn + pyval) * World)
  (agents : TavilyAgents) :
  (forall p line w,
      value (Strict.step remote agents p line w) = inr Exit
      <-> p = AtChoice /\ strip line = py "4") /\
  (forall inputs w,
      value (Strict.main_loop remote agents inputs w) = inr Exit ->
      exists before line after,
        inputs = before ++ Line line :: after /\
        strip line = py "4" /\
        value (Strict.main_loop remote agents before w)
        = inr (Waiting AtChoice)) /\
  (forall choice ack w,
      strip choice <> py "1" -> strip choice <> py "2" ->
      strip choice <> py "3" -> strip choice <> py "4" ->
      value (Strict.main_loop remote agents [Line choice] w)
      = inr (Waiting AtContinue) /\
      value (Strict.main_loop remote agents [Line choice; Line ack] w)
      = inr (Waiting AtChoice)) /\
  (reportable remote ->
   (forall lines w,
       Forall (fun line => Console.encodable line = true) lines ->
       Forall (fun line => strip line <> py "4") lines ->
       exists p,
         value (Strict.main_loop remote agents (List.map Line lines) w)
         = inr (Waiting p)) /\
   (forall choice action ack w,
       strip choice = py "1" \/ strip choice = py "2" \/
       strip choice = py "3" ->
       Console.encodable action = true ->
       value (Strict.main_loop remote agents [Line choice; Line action] w)
       = inr (Waiting AtContinue) /\
       value (Strict.main_loop remote agents
                [Line choice; Line action; Line ack] w)
       = inr (Waiting AtChoice))).
Proof.
  split; [apply strict_step_Exit|].
  split.
  { intros inputs w H. rewrite strict_main_loop_value in H.
    apply strict_run_Exit_inv in H.
    destruct H as [H|H]; [discriminate|exact H]. }
  split.
  { intros choice ack w H1 H2 H3 H4.
    rewrite !strict_main_loop_value, !strict_run_Line.
    assert (Hs : Strict.step remote agents AtChoice choice w
                 = Result [Out OInvalidChoice] w (inr (Waiting AtContinue))).
    { rewrite strict_step_AtChoice. cbv zeta.
      apply eqb_neq in H1, H2, H3, H4. rewrite H1, H2, H3, H4. reflexivity. }
    rewrite !(bind_returns _ _ _ _ _ _ Hs). split; reflexivity. }
  intros Hrep. split.
  - intros lines w He H. rewrite strict_main_loop_value.
    apply strict_run_lines_waiting; assumption.
  - intros choice action ack w Hc Ha.
    rewrite !strict_main_loop_value, !strict_run_Line.
    assert (Hs : exists p,
               (p = AtQuery \/ p = AtUrls \/ p = AtCrawlUrl) /\
               Strict.step remote agents AtChoice choice w
               = Result [] w (inr (Waiting p))).
    { rewrite strict_step_AtChoice. cbv zeta.
      destruct Hc as [->|[->| ->]]; eexists; (split; [|reflexivity]); auto. }
    destruct Hs as (p & Hp & Hs).
    rewrite !(bind_returns _ _ _ _ _ _ Hs), !prepend_nil, !strict_run_Line.
    pose proof (strict_step_action remote agents Hrep p action w Hp Ha)
      as Hact.
    rewrite !(bind_value _ _ _ _ Hact). split; reflexivity.
Qed.

Lemma menu_loop_exit_only_on_4_witness :
  reportable (Examples.failing Examples.connection_error) /\
  Console.encodable (py "rocq") = true /\
  value (Strict.main_loop (Examples.failing Examples.connection_error)
           Examples.agents [Line (py " 1 "); Line (py "rocq"); Line (py "")]
           tt)
  = inr (Waiting AtChoice).
Proof.
  assert (H : reportable (Examples.failing Examples.connection_error))
    by (apply failing_reportable; reflexivity).
  split; [exact H|]. split; [reflexivity|].
  destruct (menu_loop_exit_only_on_4
              (Examples.failing Examples.connection_error) Examples.agents)
    as (_ & _ & _ & Hloop).
  destruct (Hloop H) as (_ & Hback).
  apply (Hback (py " 1 ") (py "rocq") (py "") tt);
    [left; reflexivity | reflexivity].
Defined.

(** The failure line of an agent can be what aborts the loop: no line
    trimming to "4" was read, and the error derives from [Exception]. *)
Lemma menu_loop_left_by_unprintable_error :
  isinstance_Exception Unprintable.garbled_error = true /\
  value (Strict.main_loop (Examples.failing Unprintable.garbled_error)
           Examples.agents [Line (py "1"); Line (py "q"); Line (py "")] tt)
  = inl Console.UnicodeEncodeError.
Proof. split; vm_compute; reflexivity. Qed.

(** ** End of input, on the console *)

(** X14: when standard input ends before a line trimming to "4" was typed,
    the loop never ends normally: it is aborted by an exception, which is
    [EOFError] when the typed lines can be printed and the remote service
    fails only with exceptions that derive from [Exception] and whose
    message can be printed. *)
Theorem end_of_input_aborts {World : Type}
  (remote : TavilyClient -> request -> World -> (exn + pyval) * World)
  (agents : TavilyAgents) (lines : list pystr) (rest : list stdin)
  (w : World) :
  Forall (fun line => strip line <> py "4") lines ->
  (exists e,
      value (Strict.main_loop remote agents
               (List.map Line lines ++ EOF :: rest) w)
      = inl e) /\
  (reportable remote ->
   Forall (fun line => Console.encodable line = true) lines ->
   value (Strict.main_loop remote agents
            (List.map Line lines ++ EOF :: rest) w)
   = inl EOFError).
Proof.
  intros Hl. rewrite strict_main_loop_value, strict_run_app.
  destruct (Strict.run remote agents (List.map Line lines)
              (Waiting AtChoice) w)
    as [t w1 [e|[p|]]] eqn:E.
  - erewrite bind_raises by exact E. split; [eexists; reflexivity|].
    intros Hrep He.
    destruct (strict_run_lines_waiting remote agents Hrep lines AtChoice w
                He Hl) as [p Hp].
    rewrite E in Hp. discriminate.
  - erewrite bind_returns by exact E.
    split; [eexists|intros _ _]; reflexivity.
  - exfalso.
    assert (Hx : value (Strict.run remote agents (List.map Line lines)
                          (Waiting AtChoice) w) = inr Exit)
      by (rewrite E; reflexivity).
    apply strict_run_Exit_inv in Hx.
    destruct Hx as [Hx|(before & line & after & Heq & H4 & _)];
      [discriminate|].
    assert (Hin : In (Line line) (List.map Line lines))
      by (rewrite Heq; apply in_elt).
    apply in_map_iff in Hin. destruct Hin as (l & [= ->] & Hin).
    rewrite Forall_forall in Hl. exact (Hl _ Hin H4).
Qed.

Lemma end_of_input_aborts_witness :
  value (Strict.main_loop (Examples.failing Examples.connection_error)
           Examples.agents
           (List.map Line [py "1"; py "rocq"; py ""] ++ [EOF]) tt)
  = inl EOFError.
Proof.
  refine (proj2 (end_of_input_aborts
                   (Examples.failing Examples.connection_error)
                   Examples.agents [py "1"; py "rocq"; py ""] [] tt _) _ _).
  - repeat constructor; discriminate.
  - apply failing_reportable; reflexivity.
  - repeat constructor.
Defined.
